(** * gather_cfp: call-for-papers acquisition and ranking enrichment

    A shallow embedding of [src/gather_events.py] and [src/rate_events.py].
    The browser, the two web sites, the file system, the JSON codec and the
    date parser are outside the repository: the browser's observations are
    data (what a page shows), the file system is a finite map from paths to
    contents, and the codec and date parser are parameters. *)

From Stdlib Require Import ZArith Ascii String List DecimalString.
From stdpp Require Import base option list gmap strings fin_maps.
Import ListNotations.
Local Open Scope string_scope.
Local Open Scope list_scope.

(** ** Python strings *)

Module PyStr.

(** A character is a code point below 256; a text with other code points
    is outside the model. [is_space] holds of the code points below 256
    for which [str.isspace] does: 9 to 13, 28 to 32, U+0085 and U+00A0. *)
Definition is_space (c : ascii) : bool :=
  let n := nat_of_ascii c in
  (((9 <=? n) && (n <=? 13)) || ((28 <=? n) && (n <=? 32))
   || (n =? 133) || (n =? 160))%nat.

Fixpoint lstrip (s : string) : string :=
  match s with
  | EmptyString => EmptyString
  | String c s' => if is_space c then lstrip s' else s
  end.

Fixpoint rstrip (s : string) : string :=
  match s with
  | EmptyString => EmptyString
  | String c s' =>
      match rstrip s' with
      | EmptyString => if is_space c then EmptyString else String c EmptyString
      | r => String c r
      end
  end.

(** [s.strip()] *)
Definition strip (s : string) : string := rstrip (lstrip s).

(** [s.split(sep)] for a one-character separator: never the empty list. *)
Fixpoint split (sep : ascii) (s : string) : list string :=
  match s with
  | EmptyString => [EmptyString]
  | String c s' =>
      if Ascii.eqb c sep then EmptyString :: split sep s'
      else match split sep s' with
           | h :: t => String c h :: t
           | [] => [String c EmptyString]
           end
  end.

(** [needle in hay] *)
Fixpoint contains (needle hay : string) : bool :=
  String.prefix needle hay ||
  match hay with
  | EmptyString => false
  | String _ hay' => contains needle hay'
  end.

(** Truth value of a string: [if s:] *)
Definition truthy (s : string) : bool := negb (String.eqb s "").

(** [range(start, stop, step)] for a positive step. *)
Fixpoint range_from (fuel i stop step : nat) : list nat :=
  match fuel with
  | O => []
  | S fuel' => if (i <? stop)%nat then i :: range_from fuel' (i + step)%nat stop step else []
  end.

Definition range (start stop step : nat) : list nat :=
  range_from stop start stop step.

End PyStr.

(** ** Exceptions *)

Inductive Exc (A : Type) : Type :=
| Ok (a : A)
| Raise (e : string).
Arguments Ok {A} a.
Arguments Raise {A} e.

#[global] Instance exc_ret : MRet Exc := fun A a => Ok a.
#[global] Instance exc_bind : MBind Exc := fun A B k m =>
  match m with
  | Ok a => k a
  | Raise e => Raise e
  end.

(** The absent-marker. *)
Definition NA : string := "N/A".

(** ** Listing pages as the browser shows them *)

(** An [<a>] element: its text and its [href] attribute ([None] when the
    attribute is missing, in which case [get_attribute] returns [None]). *)
Record Anchor := { a_text : string; a_href : option string }.

(** A [<td>] element: its text and its first [<a>] descendant. *)
Record Cell := { td_text : string; td_anchor : option Anchor }.

(** A [<tr>] is the list of its [<td>]s; a table is the list of its [<tr>]s. *)
Definition Row : Type := list Cell.
Definition Table : Type := list Row.

(** What [click_next_page] meets on a page. *)
Inductive NextLink :=
| NoNext        (* no clickable link with text "next" within 5 seconds *)
| NextBroken    (* the click raises, or the link never becomes stale *)
| NextOk.       (* the click loads the following page *)

Record ListingPage := { page_tables : list Table; page_next : NextLink }.

(** The listing site: whether the first [driver.get(url)] succeeds, and the
    pages in the order in which "next" reaches them. *)
Record Site := { reachable : bool; pages : list ListingPage }.

(** One extracted listing; [link] is [None] when the anchor has no [href]. *)
Record EventData := {
  event_name : string;
  description : string;
  link : option string;
  when_ : string;
  where_ : string;
  deadline : string
}.

(** One ranking lookup result, the dictionary built by [get_core_ranking];
    [dblp_link] is [None] when the anchor has no [href]. *)
Record RankingRecord := {
  title : string;
  acronym : string;
  source : string;
  rank : string;
  note : string;
  dblp_link : option string;
  primary_for : string;
  comments : string;
  average_rating : string;
  found : bool
}.

(** The values stored in the record dictionaries that are merged, written as
    JSON and read back. *)
Inductive Value :=
| VNone
| VBool (b : bool)
| VInt (z : Z)
| VStr (s : string)
| VList (l : list string)
| VCore (r : RankingRecord).

(** [href] values as dictionary values. *)
Definition of_href (h : option string) : Value :=
  match h with
  | Some u => VStr u
  | None => VNone
  end.

Module Extractor.

Section WithDateParser.

(** [datetime.strptime(s, '%b %d, %Y').strftime('%d/%m/%y')], [None] on
    [ValueError]. *)
Variable strptime_strftime : string -> option string.

(** [format_deadline] *)
Definition format_deadline (deadline_str : string) : string :=
  if String.eqb deadline_str "N/A" then deadline_str
  else
    let deadline_str := PyStr.strip (hd EmptyString (PyStr.split "("%char deadline_str)) in
    match strptime_strftime deadline_str with
    | Some d => d
    | None => deadline_str
    end.

(** The XPath [//table[tbody/tr[1]/td[contains(., 'Event')]]]. *)
Definition is_event_table (t : Table) : bool :=
  match t with
  | [] => false
  | header :: _ => existsb (fun c => PyStr.contains "Event" (td_text c)) header
  end.

(** The bounded wait for the table: [None] is the timeout. *)
Definition locate_table (p : ListingPage) : option Table :=
  List.find is_event_table (page_tables p).

(** Name and link of the first cell (lines 80-87). *)
Definition name_and_link (c : Cell) : string * option string :=
  match td_anchor c with
  | Some a => (PyStr.strip (a_text a), a_href a)
  | None => (PyStr.strip (td_text c), Some NA)
  end.

(** When, where and deadline from the record's second row (lines 93-100). *)
Definition second_row_fields (row2 : option Row) : string * string * string :=
  match row2 with
  | Some cells2 =>
      match cells2 with
      | c0 :: c1 :: c2 :: _ =>
          (PyStr.strip (td_text c0), PyStr.strip (td_text c1),
           format_deadline (PyStr.strip (td_text c2)))
      | _ => (NA, NA, NA)
      end
  | None => (NA, NA, NA)
  end.

(** The record of one pair of rows: [None] is the [continue] taken when
    the first row has fewer than 2 cells (lines 75-77). *)
Definition extract_record (cells1 : Row) (row2 : option Row) : option EventData :=
  if (length cells1 <? 2)%nat then None
  else
    match cells1 with
    | c0 :: c1 :: _ =>
        let '(name, href) := name_and_link c0 in
        let description := if (2 <=? length cells1)%nat then PyStr.strip (td_text c1) else NA in
        let '(when, where', deadline) := second_row_fields row2 in
        Some {| event_name := name; description := description; link := href;
                when_ := when; where_ := where'; deadline := deadline |}
    | _ => None
    end.

(** The body of the loop at index [i] (lines 71-113). *)
Definition loop_body (rows : list Row) (events : list EventData) (i : nat)
  : list EventData :=
  match rows !! i with
  | None => events
  | Some cells1 =>
      let row2 := if (i + 1 <? length rows)%nat then rows !! (i + 1)%nat else None in
      match extract_record cells1 row2 with
      | Some event_data => events ++ [event_data]
      | None => events
      end
  end.

(** [process_data_table] *)
Definition process_data_table (p : ListingPage) : list EventData :=
  match locate_table p with
  | None => []
  | Some rows =>
      if (length rows <? 3)%nat then []
      else fold_left (loop_body rows) (PyStr.range 1 (length rows) 2) []
  end.

End WithDateParser.

End Extractor.

(** ** Pagination driver *)

Module Pagination.

(** The page the browser shows at position [i]; past the last page there
    is neither a table nor a "next" link. *)
Definition page_at (site : Site) (i : nat) : ListingPage :=
  nth i (pages site) {| page_tables := []; page_next := NoNext |}.

(** [click_next_page]: the new browser position and the returned flag. *)
Definition click_next_page (site : Site) (driver : nat) : nat * bool :=
  match page_next (page_at site driver) with
  | NextOk => (S driver, true)
  | NextBroken => (driver, false)
  | NoNext => (driver, false)
  end.

(** The variables of the loop of [main], with two logs: the positions on
    which [process_data_table] and [click_next_page] were called. *)
Record LoopState := {
  driver : nat;
  page_count : Z;
  all_events : list EventData;
  visited : list nat;
  clicked : list nat
}.

Definition initial : LoopState :=
  {| driver := 0; page_count := 0; all_events := []; visited := []; clicked := [] |}.

Section Loop.

Variable strptime_strftime : string -> option string.
Variable site : Site.
Variable max_pages : Z.

(** [while True:] of [main] (lines 217-227); [None] is out of fuel. The
    [or] of line 222 does not call [click_next_page] when its left
    operand holds. *)
Fixpoint pagination_loop (fuel : nat) (st : LoopState) : option LoopState :=
  match fuel with
  | O => None
  | S fuel' =>
      let page_count := (page_count st + 1)%Z in
      let events := Extractor.process_data_table strptime_strftime
                      (page_at site (driver st)) in
      let all_events := all_events st ++ events in
      let visited := visited st ++ [driver st] in
      if (max_pages <=? page_count)%Z then
        Some {| driver := driver st; page_count := page_count;
                all_events := all_events; visited := visited;
                clicked := clicked st |}
      else
        let '(driver', ok) := click_next_page site (driver st) in
        let clicked := clicked st ++ [driver st] in
        if negb ok then
          Some {| driver := driver'; page_count := page_count;
                  all_events := all_events; visited := visited;
                  clicked := clicked |}
        else
          pagination_loop fuel'
            {| driver := driver'; page_count := page_count;
               all_events := all_events; visited := visited;
               clicked := clicked |}
  end.

(** The loop never runs more than [max(1, max_pages)] times. *)
Definition paginate : option LoopState :=
  pagination_loop (S (Z.to_nat max_pages)) initial.

End Loop.

End Pagination.

(** ** Detail enricher *)

(** A child of the first [<h5>] of a detail page, in document order: a
    text node, or an [<a>] element with its own text nodes. *)
Inductive HeadingNode :=
| HText (s : string)
| HAnchor (texts : list string).

Definition Heading : Type := list HeadingNode.

(** What the parser and the pattern searches find on a loaded detail page. *)
Record DetailPage := {
  (* [soup.find("title")]: the text of the tag *)
  title_tag : option string;
  (* [driver.title], or the exception that the browser raises *)
  driver_title : Exc string;
  (* [soup.find("meta", attrs={"name": "description"})]: its ["content"] *)
  meta_desc : option (option string);
  (* group 1 of the first match of [Deadline\s*:\s*([\w\s,\-]+)] *)
  deadline_match : option string;
  (* group 1 of the first match of [Review Time\s*:\s*([\w\s,\-]+)] *)
  review_match : option string;
  (* group 1 of the first match of [Conference Rank\s*:\s*([\w\s,\-]+)] *)
  rank_match : option string;
  (* whether some text node matches [workshop], ignoring case *)
  workshop_text : bool;
  (* [int] of group 1 of the first match of [Minimum Pages\s*:\s*(\d+)],
     or the [ValueError] that [int] raises on more than 4300 digits *)
  pages_match : option (Exc Z);
  (* the first text node containing ["Link:"]; its enclosing [<td>]; the
     [href] of the first [<a href>] of that cell *)
  link_text : option (option (option string));
  (* [soup.find("h5")] *)
  first_h5 : option Heading
}.

(** [driver.get(event_url)], the wait for [<body>], [driver.page_source]
    and the parse of the markup: the page, or the exception one of them
    raises. *)
Definition Web : Type := string -> Exc DetailPage.

Module Enricher.

(** The nine keys of a complete attribute set. *)
Definition detail_keys : list string :=
  ["page_title"; "meta_description"; "detailed_deadline"; "review_time";
   "conference_rank"; "is_workshop"; "minimum_pages"; "website_link";
   "categories"].

Definition stripped_or_na (m : option string) : Value :=
  match m with
  | Some g => VStr (PyStr.strip g)
  | None => VStr NA
  end.

(** [a.get_text()]: the text nodes of the anchor, joined. *)
Definition get_text (texts : list string) : string :=
  fold_right String.append EmptyString texts.

(** [a.get_text(strip=True)]: each text node stripped, the empty ones
    left out, joined. *)
Definition get_text_strip (texts : list string) : string :=
  fold_right String.append EmptyString
    (List.filter PyStr.truthy (map PyStr.strip texts)).

(** [cat_h5.get_text()]: every text node of the heading, those of its
    anchors included. *)
Definition heading_text (h : Heading) : string :=
  fold_right String.append EmptyString
    (map (fun n => match n with
                   | HText t => t
                   | HAnchor texts => get_text texts
                   end) h).

(** [cat_h5.find_all("a")] *)
Definition anchors (h : Heading) : list (list string) :=
  omap (fun n => match n with
                 | HText _ => None
                 | HAnchor texts => Some texts
                 end) h.

(** Lines 188-194. *)
Definition categories (p : DetailPage) : Value :=
  match first_h5 p with
  | Some cat_h5 =>
      if PyStr.contains "Categories" (heading_text cat_h5) then
        VList (map get_text_strip
                 (List.filter (fun a => negb (PyStr.contains "Categories" (get_text a)))
                    (anchors cat_h5)))
      else VList []
  | None => VList []
  end.

(** Lines 151-194, the body of the [try] once the page is parsed: the
    assignments to [details], in source order. The result is [details] as
    the assignments left it, with the exception that ended the body, if
    any: [driver.title] and [int] can raise. *)
Definition extract_details (p : DetailPage) (details : gmap string Value)
  : gmap string Value * option string :=
  match (match title_tag p with
         | Some t => Ok (PyStr.strip t)
         | None => driver_title p
         end) with
  | Raise e => (details, Some e)
  | Ok page_title =>
      let details := <["page_title" := VStr page_title]> details in
      let details :=
        <["meta_description" :=
            match meta_desc p with
            | Some (Some c) => if PyStr.truthy c then VStr (PyStr.strip c) else VStr NA
            | _ => VStr NA
            end]> details in
      let details := <["detailed_deadline" := stripped_or_na (deadline_match p)]> details in
      let details := <["review_time" := stripped_or_na (review_match p)]> details in
      let details := <["conference_rank" := stripped_or_na (rank_match p)]> details in
      let details := <["is_workshop" := VBool (workshop_text p)]> details in
      match pages_match p with
      | Some (Raise e) => (details, Some e)
      | pages =>
          let details :=
            <["minimum_pages" :=
                match pages with
                | Some (Ok n) => VInt n
                | _ => VStr NA
                end]> details in
          let details :=
            <["website_link" :=
                match link_text p with
                | Some (Some (Some href)) => VStr href
                | _ => VStr NA
                end]> details in
          let details := <["categories" := categories p]> details in
          (details, None)
      end
  end.

(** [scrape_event_details]: the [except] branch adds [error] to what the
    [try] had assigned. *)
Definition scrape_event_details (web : Web) (event_url : string)
  : gmap string Value :=
  let details : gmap string Value := ∅ in
  match web event_url with
  | Ok p =>
      match extract_details p details with
      | (details, None) => details
      | (details, Some e) => <["error" := VStr e]> details
      end
  | Raise e => <["error" := VStr e]> details
  end.

End Enricher.

(** ** The script's [main] *)

Module Gather.

(** The dictionary literal of lines 102-109. *)
Definition event_dict (e : EventData) : gmap string Value :=
  <["deadline" := VStr (deadline e)]>
    (<["where" := VStr (where_ e)]>
       (<["when" := VStr (when_ e)]>
          (<["link" := of_href (link e)]>
             (<["description" := VStr (description e)]>
                (<["event_name" := VStr (event_name e)]> ∅))))).

(** [event["link"] and event["link"] != "N/A"] (line 234). *)
Definition link_present (e : EventData) : bool :=
  match link e with
  | Some u => PyStr.truthy u && negb (String.eqb u "N/A")
  | None => false
  end.

(** The body of the loop of lines 233-237; [{**event, **details}] lets
    the keys of [details] win. *)
Definition detail_step (web : Web) (all_events_details : list (gmap string Value))
    (event : EventData) : list (gmap string Value) :=
  match link event with
  | Some u =>
      if PyStr.truthy u && negb (String.eqb u "N/A") then
        let details := Enricher.scrape_event_details web u in
        let new_details := details ∪ event_dict event in
        all_events_details ++ [new_details]
      else all_events_details
  | None => all_events_details
  end.

(** Lines 232-237: the list handed to [json.dumps]. *)
Definition detail_pass (web : Web) (all_events : list EventData)
  : list (gmap string Value) :=
  fold_left (detail_step web) all_events [].

(** [main]: the array written to the output file and to the cache copy;
    [Raise] when the first [driver.get] fails, [None] when the pagination
    loop is out of fuel. *)
Definition main (strptime_strftime : string -> option string)
    (site : Site) (web : Web) (max_pages : Z)
  : option (Exc (list (gmap string Value))) :=
  if reachable site then
    st ← Pagination.paginate strptime_strftime site max_pages;
    Some (Ok (detail_pass web (Pagination.all_events st)))
  else Some (Raise "WebDriverException").

End Gather.

(** ** Ranking resolver *)

(** The results table of the ranking portal: [table.text], the text of the
    whole [tbody], and its rows of class [evenrow] or [oddrow]. The text is
    that of an element which contains the rows; it is kept as one more
    observation and not derived from the cells, so that what is proved
    holds for every text, the one rendered from the rows among them. *)
Record ResultsTable := { table_text : string; result_rows : list Row }.

(** What the browser meets during one lookup. *)
Record Lookup := {
  (* [driver.get(search_url)] returns *)
  portal_loads : bool;
  (* the search box appears within the wait and takes the keys *)
  search_box : bool;
  (* the submit button becomes clickable within the wait and is clicked *)
  submit_button : bool;
  (* [table tbody], or [None] when the wait times out *)
  results : option ResultsTable
}.

Module Resolver.

(** The dictionary of lines 29-40. *)
Definition default_result : RankingRecord :=
  {| title := "N/A"; acronym := "N/A"; source := "N/A"; rank := "Unranked";
     note := "N/A"; dblp_link := Some "N/A"; primary_for := "N/A";
     comments := "N/A"; average_rating := "N/A"; found := false |}.

(** Lines 44-52: the search, up to the results table. *)
Definition search (l : Lookup) : Exc ResultsTable :=
  if negb (search_box l) then Raise "TimeoutException"
  else if negb (submit_button l) then Raise "TimeoutException"
  else match results l with
       | Some table => Ok table
       | None => Raise "TimeoutException: No table found"
       end.

(** [first_row.find_element(By.XPATH, "./td[k]").text.strip()] *)
Definition td (first_row : Row) (k : nat) : Exc string :=
  match first_row !! (k - 1)%nat with
  | Some c => Ok (PyStr.strip (td_text c))
  | None => Raise "NoSuchElementException"
  end.

(** Lines 74-78: the optional link of the sixth cell. *)
Definition with_dblp_link (first_row : Row) (result : RankingRecord) : RankingRecord :=
  match first_row !! 5%nat with
  | Some c =>
      match td_anchor c with
      | Some a =>
          {| title := title result; acronym := acronym result;
             source := source result; rank := rank result; note := note result;
             dblp_link := a_href a; primary_for := primary_for result;
             comments := comments result;
             average_rating := average_rating result; found := found result |}
      | None => result
      end
  | None => result
  end.

(** The body of the [try] (lines 43-78): the value of [result] at its
    end, or the exception that leaves [result] as it was. The dictionary
    passed to [update] is built in full before [result] changes. *)
Definition attempt (l : Lookup) (result : RankingRecord) : Exc RankingRecord :=
  table ← search l;
  if PyStr.contains "0 Results found." (table_text table) then Ok result
  else
    match result_rows table with
    | [] => Ok result
    | first_row :: _ =>
        title ← td first_row 1;
        acronym ← td first_row 2;
        source ← td first_row 3;
        rank ← td first_row 4;
        note ← td first_row 5;
        primary_for ← td first_row 7;
        comments ← td first_row 8;
        average_rating ← td first_row 9;
        let result :=
          {| title := title; acronym := acronym; source := source; rank := rank;
             note := note; dblp_link := dblp_link result;
             primary_for := primary_for; comments := comments;
             average_rating := average_rating; found := true |} in
        Ok (with_dblp_link first_row result)
    end.

(** [get_core_ranking]: [driver.get] stands before the [try]. *)
Definition get_core_ranking (conference_name : string) (l : Lookup)
  : Exc RankingRecord :=
  if portal_loads l then
    let result := default_result in
    match attempt l result with
    | Ok result => Ok result
    | Raise _ => Ok result
    end
  else Raise "WebDriverException".

End Resolver.

(** ** Ranking cache and enrichment loop *)

(** The state of a run of [enrich_conferences]: the cache dictionary, the
    files on disk, and two logs: the names passed to [get_core_ranking], in
    call order, and the seconds slept. *)
Record RunState := {
  ranking_cache : gmap string RankingRecord;
  files : gmap string string;
  lookups : list string;
  slept : nat
}.

Module Ranking.

(** [os.path.join] of two POSIX components. *)
Definition path_join (a b : string) : string :=
  if String.prefix "/" b then b
  else if String.eqb a "" then b
  else if String.eqb (String.substring (String.length a - 1) 1 a) "/" then (a ++ b)%string
  else (a ++ "/" ++ b)%string.

(** [extract_conference_name] *)
Definition truth (v : Value) : bool :=
  match v with
  | VNone => false
  | VBool b => b
  | VInt z => negb (z =? 0)%Z
  | VStr s => PyStr.truthy s
  | VList l => negb (bool_decide (l = []))
  | VCore _ => true
  end.

Definition extract_conference_name (conf : gmap string Value) : Exc string :=
  let title := default (VStr "") (conf !! "page_title") in
  if truth title then
    match title with
    | VStr title =>
        let parts := PyStr.split " "%char title in
        Ok (if (1 <? length parts)%nat then PyStr.strip (hd "" parts)
            else PyStr.strip title)
    | _ => Raise "AttributeError"
    end
  else
    match default (VStr "") (conf !! "event_name") with
    | VStr event_name => Ok (hd "" (PyStr.split " "%char event_name))
    | _ => Raise "AttributeError"
    end.

Section WithEnvironment.

(** [json.dump(cache, file, ensure_ascii=False, indent=4)]: the text
    written for a cache. *)
Variable json_dump : gmap string RankingRecord -> string.
(** [json.load(file)] on the store file: [None] is [JSONDecodeError]. *)
Variable json_load : string -> option (gmap string RankingRecord).
(** [os.getenv("DATA_OUTPUT")] *)
Variable DATA_OUTPUT : option string.
(** What the ranking portal shows at the [n]-th lookup of the run, for
    the name searched. *)
Variable portal : nat -> string -> Lookup.
(** [json.dump(conferences, f, indent=2, ensure_ascii=False)]: the text
    written for a list of records. *)
Variable records_dump : list (gmap string Value) -> string.
(** The parameter [output_path] of [enrich_conferences]. *)
Variable output_path : string.

Definition base_output_dir : string := default "data_output" DATA_OUTPUT.

(** [load_ranking_cache] *)
Definition load_ranking_cache (fs : gmap string string)
  : Exc (gmap string RankingRecord) :=
  let cache_file :=
    path_join (path_join base_output_dir "cache") "ranking_cache.json" in
  match fs !! cache_file with
  | Some content =>
      match json_load content with
      | Some cache => Ok cache
      | None => Raise "JSONDecodeError"
      end
  | None => Ok ∅
  end.

(** [store_ranking_cache]: the directory is created when missing. *)
Definition store_ranking_cache (cache : gmap string RankingRecord)
    (fs : gmap string string) : gmap string string :=
  let cache_dir := path_join base_output_dir "cache" in
  let cache_file := path_join cache_dir "ranking_cache.json" in
  <[cache_file := json_dump cache]> fs.

(** Lines 117 and 119: the insertion and the flush that follows it. *)
Definition insert_and_store (conf_name : string) (core_data : RankingRecord)
    (st : RunState) : RunState :=
  let ranking_cache := <[conf_name := core_data]> (ranking_cache st) in
  {| ranking_cache := ranking_cache;
     files := store_ranking_cache ranking_cache (files st);
     lookups := lookups st;
     slept := slept st |}.

(** The body of the loop of [enrich_conferences] (lines 109-120): the
    new state, and the record with its [core_data] or the exception
    that ends the run. *)
Definition enrich_step (conf : gmap string Value) (st : RunState)
  : RunState * Exc (gmap string Value) :=
  match extract_conference_name conf with
  | Raise e => (st, Raise e)
  | Ok conf_name =>
      match ranking_cache st !! conf_name with
      | Some cached => (st, Ok (<["core_data" := VCore cached]> conf))
      | None =>
          let l := portal (length (lookups st)) conf_name in
          let st := {| ranking_cache := ranking_cache st; files := files st;
                       lookups := lookups st ++ [conf_name];
                       slept := slept st |} in
          match Resolver.get_core_ranking conf_name l with
          | Raise e => (st, Raise e)
          | Ok core_data =>
              let st := insert_and_store conf_name core_data st in
              ({| ranking_cache := ranking_cache st; files := files st;
                  lookups := lookups st; slept := slept st + 2 |},
               Ok (<["core_data" := VCore core_data]> conf))
          end
      end
  end.

(** [for conf in conferences:] (lines 108-120). *)
Fixpoint enrich_loop (conferences : list (gmap string Value)) (st : RunState)
  : RunState * Exc (list (gmap string Value)) :=
  match conferences with
  | [] => (st, Ok [])
  | conf :: rest =>
      match enrich_step conf st with
      | (st, Ok conf) =>
          let '(st, r) := enrich_loop rest st in
          (st, match r with
               | Ok rest => Ok (conf :: rest)
               | Raise e => Raise e
               end)
      | (st, Raise e) => (st, Raise e)
      end
  end.

(** [enrich_conferences], from the decoded input file on: the final
    state, and the list written to the output file. The [or {}] of line 101
    replaces an empty loaded mapping by an empty mapping. After the loop
    the cache is stored once more (line 125) and the records are written
    to [output_path] (lines 127-128). *)
Definition enrich_conferences (conferences : list (gmap string Value))
    (fs : gmap string string) : RunState * Exc (list (gmap string Value)) :=
  let st0 := {| ranking_cache := ∅; files := fs; lookups := []; slept := 0 |} in
  match load_ranking_cache fs with
  | Raise e => (st0, Raise e)
  | Ok loaded =>
      let st := {| ranking_cache := loaded; files := fs;
                   lookups := []; slept := 0 |} in
      match enrich_loop conferences st with
      | (st, Ok conferences) =>
          let fs := store_ranking_cache (ranking_cache st) (files st) in
          let fs := <[output_path := records_dump conferences]> fs in
          ({| ranking_cache := ranking_cache st; files := fs;
              lookups := lookups st; slept := slept st |},
           Ok conferences)
      | (st, Raise e) => (st, Raise e)
      end
  end.

End WithEnvironment.

End Ranking.

(** ** A JSON codec for the store file

    The theorems below hold for every codec. This one, for the fragment of
    JSON that the cache uses (objects, arrays, strings, integers and the
    three literals), instantiates them on concrete files. A document that
    is not an object of ranking records is rejected. *)

Module Json.

Local Unset Elimination Schemes.
Inductive json :=
| JNull
| JBool (b : bool)
| JNum (digits : string)
| JStr (s : string)
| JArr (items : list json)
| JObj (members : list (string * json)).
Local Set Elimination Schemes.

Definition quote : ascii := ascii_of_nat 34.
Definition backslash : ascii := ascii_of_nat 92.
Definition newline : string := String (ascii_of_nat 10) EmptyString.

Definition is_ws (c : ascii) : bool :=
  let n := nat_of_ascii c in
  ((n =? 32) || (n =? 9) || (n =? 10) || (n =? 13))%nat.

Definition is_digit (c : ascii) : bool :=
  let n := nat_of_ascii c in ((48 <=? n) && (n <=? 57))%nat.

Fixpoint skip_ws (s : string) : string :=
  match s with
  | EmptyString => EmptyString
  | String c s' => if is_ws c then skip_ws s' else s
  end.

Definition hex_digit (n : nat) : ascii :=
  ascii_of_nat (if (n <? 10)%nat then 48 + n else 87 + n).

Definition hex_value (c : ascii) : option nat :=
  let n := nat_of_ascii c in
  if ((48 <=? n) && (n <=? 57))%nat then Some (n - 48)%nat
  else if ((97 <=? n) && (n <=? 102))%nat then Some (n - 87)%nat
  else if ((65 <=? n) && (n <=? 70))%nat then Some (n - 55)%nat
  else None.

(** ** Writing *)

Definition escape_char (c : ascii) : string :=
  let n := nat_of_ascii c in
  if (n =? 34)%nat then String backslash (String quote EmptyString)
  else if (n =? 92)%nat then String backslash (String backslash EmptyString)
  else if (n =? 10)%nat then String backslash "n"
  else if (n =? 13)%nat then String backslash "r"
  else if (n =? 9)%nat then String backslash "t"
  else if (n =? 8)%nat then String backslash "b"
  else if (n =? 12)%nat then String backslash "f"
  else if (n <? 32)%nat then
    String backslash
      (String "u" (String "0" (String "0"
         (String (hex_digit (n / 16)) (String (hex_digit (n mod 16)) EmptyString)))))
  else String c EmptyString.

Fixpoint escape (s : string) : string :=
  match s with
  | EmptyString => EmptyString
  | String c s' => (escape_char c ++ escape s')%string
  end.

Definition dump_string (s : string) : string :=
  String quote (escape s ++ String quote EmptyString)%string.

Definition dump_href (h : option string) : string :=
  match h with
  | Some u => dump_string u
  | None => "null"
  end.

Definition dump_member (indent key value : string) (last : bool) : string :=
  (indent ++ dump_string key ++ ": " ++ value
     ++ (if last then "" else ",") ++ newline)%string.

Definition dump_record (r : RankingRecord) : string :=
  let i := "        " in
  ("{" ++ newline
    ++ dump_member i "title" (dump_string (title r)) false
    ++ dump_member i "acronym" (dump_string (acronym r)) false
    ++ dump_member i "source" (dump_string (source r)) false
    ++ dump_member i "rank" (dump_string (rank r)) false
    ++ dump_member i "note" (dump_string (note r)) false
    ++ dump_member i "dblp_link" (dump_href (dblp_link r)) false
    ++ dump_member i "primary_for" (dump_string (primary_for r)) false
    ++ dump_member i "comments" (dump_string (comments r)) false
    ++ dump_member i "average_rating" (dump_string (average_rating r)) false
    ++ dump_member i "found" (if found r then "true" else "false") true
    ++ "    }")%string.

Fixpoint dump_members (l : list (string * RankingRecord)) : string :=
  match l with
  | [] => EmptyString
  | [(k, r)] => dump_member "    " k (dump_record r) true
  | (k, r) :: rest => (dump_member "    " k (dump_record r) false ++ dump_members rest)%string
  end.

(** The text of a cache, with an indentation of 4; the members come in the
    order of [map_to_list], a finite map keeping no insertion order. *)
Definition dump (cache : gmap string RankingRecord) : string :=
  match map_to_list cache with
  | [] => "{}"
  | l => ("{" ++ newline ++ dump_members l ++ "}")%string
  end.

(** ** Reading *)

(** The rest of a string literal after its opening quote. *)
Fixpoint parse_string (s : string) : option (string * string) :=
  match s with
  | EmptyString => None
  | String c s' =>
      if Ascii.eqb c quote then Some (EmptyString, s')
      else if Ascii.eqb c backslash then
        match s' with
        | String e s'' =>
            let plain (ch : ascii) :=
              '(str, rest) ← parse_string s''; Some (String ch str, rest) in
            if Ascii.eqb e quote then plain quote
            else if Ascii.eqb e backslash then plain backslash
            else if Ascii.eqb e "/" then plain "/"%char
            else if Ascii.eqb e "n" then plain (ascii_of_nat 10)
            else if Ascii.eqb e "r" then plain (ascii_of_nat 13)
            else if Ascii.eqb e "t" then plain (ascii_of_nat 9)
            else if Ascii.eqb e "b" then plain (ascii_of_nat 8)
            else if Ascii.eqb e "f" then plain (ascii_of_nat 12)
            else if Ascii.eqb e "u" then
              match s'' with
              | String h1 (String h2 (String h3 (String h4 s4))) =>
                  a ← hex_value h1; b ← hex_value h2;
                  c ← hex_value h3; d ← hex_value h4;
                  if ((a =? 0) && (b =? 0) && (c <? 8))%nat then
                    '(str, rest) ← parse_string s4;
                    Some (String (ascii_of_nat (16 * c + d)) str, rest)
                  else None
              | _ => None
              end
            else None
        | EmptyString => None
        end
      else if (nat_of_ascii c <? 32)%nat then None
      else '(str, rest) ← parse_string s'; Some (String c str, rest)
  end.

Fixpoint take_digits (s : string) : string * string :=
  match s with
  | EmptyString => (EmptyString, EmptyString)
  | String c s' =>
      if is_digit c then let '(d, rest) := take_digits s' in (String c d, rest)
      else (EmptyString, s)
  end.

Definition parse_number (s : string) : option (json * string) :=
  let '(sign, s1) :=
    match s with
    | String c s' => if Ascii.eqb c "-" then ("-", s') else ("", s)
    | EmptyString => ("", s)
    end in
  let '(d, rest) := take_digits s1 in
  if String.eqb d "" then None else Some (JNum (sign ++ d)%string, rest).

Definition strip_prefix (p s : string) : option string :=
  if String.prefix p s
  then Some (String.substring (String.length p) (String.length s - String.length p) s)
  else None.

Fixpoint parse_value (fuel : nat) (s : string) : option (json * string) :=
  match fuel with
  | O => None
  | S fuel =>
      match skip_ws s with
      | EmptyString => None
      | String c r as s0 =>
          if Ascii.eqb c "{" then
            match skip_ws r with
            | String c' r' =>
                if Ascii.eqb c' "}" then Some (JObj [], r')
                else parse_members fuel (String c' r') []
            | EmptyString => None
            end
          else if Ascii.eqb c "[" then
            match skip_ws r with
            | String c' r' =>
                if Ascii.eqb c' "]" then Some (JArr [], r')
                else parse_items fuel (String c' r') []
            | EmptyString => None
            end
          else if Ascii.eqb c quote then
            '(str, rest) ← parse_string r; Some (JStr str, rest)
          else
            match strip_prefix "true" s0, strip_prefix "false" s0,
                  strip_prefix "null" s0 with
            | Some rest, _, _ => Some (JBool true, rest)
            | _, Some rest, _ => Some (JBool false, rest)
            | _, _, Some rest => Some (JNull, rest)
            | _, _, _ => parse_number s0
            end
      end
  end
with parse_members (fuel : nat) (s : string) (acc : list (string * json))
  : option (json * string) :=
  match fuel with
  | O => None
  | S fuel =>
      match skip_ws s with
      | String c r =>
          if Ascii.eqb c quote then
            '(key, r1) ← parse_string r;
            match skip_ws r1 with
            | String c1 r2 =>
                if Ascii.eqb c1 ":" then
                  '(v, r3) ← parse_value fuel r2;
                  match skip_ws r3 with
                  | String c3 r4 =>
                      if Ascii.eqb c3 "," then parse_members fuel r4 (acc ++ [(key, v)])
                      else if Ascii.eqb c3 "}" then Some (JObj (acc ++ [(key, v)]), r4)
                      else None
                  | EmptyString => None
                  end
                else None
            | EmptyString => None
            end
          else None
      | EmptyString => None
      end
  end
with parse_items (fuel : nat) (s : string) (acc : list json)
  : option (json * string) :=
  match fuel with
  | O => None
  | S fuel =>
      '(v, r1) ← parse_value fuel s;
      match skip_ws r1 with
      | String c r2 =>
          if Ascii.eqb c "," then parse_items fuel r2 (acc ++ [v])
          else if Ascii.eqb c "]" then Some (JArr (acc ++ [v]), r2)
          else None
      | EmptyString => None
      end
  end.

(** One whole document. *)
Definition parse (s : string) : option json :=
  '(j, rest) ← parse_value (S (String.length s)) s;
  if String.eqb (skip_ws rest) "" then Some j else None.

(** The last value of a key, as in a Python dictionary. *)
Definition member (key : string) (members : list (string * json)) : option json :=
  snd <$> List.find (fun kv => String.eqb (fst kv) key) (rev members).

Definition text_member (key : string) (members : list (string * json))
  : option string :=
  match member key members with
  | Some (JStr s) => Some s
  | _ => None
  end.

Definition record_of (j : json) : option RankingRecord :=
  match j with
  | JObj m =>
      title ← text_member "title" m;
      acronym ← text_member "acronym" m;
      source ← text_member "source" m;
      rank ← text_member "rank" m;
      note ← text_member "note" m;
      dblp_link ← match member "dblp_link" m with
                  | Some (JStr u) => Some (Some u)
                  | Some JNull => Some None
                  | _ => None
                  end;
      primary_for ← text_member "primary_for" m;
      comments ← text_member "comments" m;
      average_rating ← text_member "average_rating" m;
      found ← match member "found" m with
              | Some (JBool b) => Some b
              | _ => None
              end;
      Some {| title := title; acronym := acronym; source := source;
              rank := rank; note := note; dblp_link := dblp_link;
              primary_for := primary_for; comments := comments;
              average_rating := average_rating; found := found |}
  | _ => None
  end.

Fixpoint cache_of (members : list (string * json)) (acc : gmap string RankingRecord)
  : option (gmap string RankingRecord) :=
  match members with
  | [] => Some acc
  | (k, j) :: rest => r ← record_of j; cache_of rest (<[k := r]> acc)
  end.

(** The cache that a store file holds. [json.load] returns any JSON value;
    this decoder returns the mappings of ranking records only, the values
    of the type of the parameter [json_load], and rejects every other
    document. *)
Definition load (content : string) : option (gmap string RankingRecord) :=
  j ← parse content;
  match j with
  | JObj members => cache_of members ∅
  | _ => None
  end.

End Json.

(** * Properties *)

(** ** Record extractor *)

Module ExtractorProps.
Import Extractor.

(** The rows after the header, two by two; the last record may lack its
    second row. *)
Fixpoint pair_up (rows : list Row) : list (Row * option Row) :=
  match rows with
  | [] => []
  | [row1] => [(row1, None)]
  | row1 :: row2 :: rest => (row1, Some row2) :: pair_up rest
  end.

(** The rows of a list of complete pairs. *)
Definition flatten (pairs : list (Row * Row)) : list Row :=
  concat (map (fun pr => [pr.1; pr.2]) pairs).

Section WithDateParser.

Variable strptime_strftime : string -> option string.

(** The records of the pairs that pass the guard on the first row. *)
Definition records (rows : list Row) : list EventData :=
  omap (fun pr => extract_record strptime_strftime pr.1 pr.2) (pair_up rows).

Lemma range_from_stop fuel i stop step :
  (stop <= i)%nat -> PyStr.range_from fuel i stop step = [].
Proof.
  intros Hle. destruct fuel as [|fuel]; simpl; [done|].
  destruct (Nat.ltb_spec i stop); [lia|done].
Qed.

(** The loop from an odd index on is the pairing of the rows left. *)
Lemma loop_records (fuel : nat) :
  forall (pre rest : list Row) (acc : list EventData),
    (length rest <= fuel)%nat ->
    fold_left (loop_body strptime_strftime (pre ++ rest))
      (PyStr.range_from fuel (length pre) (length (pre ++ rest)) 2) acc
    = acc ++ records rest.
Proof.
  induction fuel as [|fuel IH]; intros pre rest acc Hfuel.
  - destruct rest; simpl in Hfuel; [|lia].
    simpl. unfold records. simpl. by rewrite app_nil_r.
  - destruct rest as [|row1 [|row2 rest]].
    + rewrite range_from_stop by (rewrite length_app; simpl; lia).
      simpl. unfold records. simpl. by rewrite app_nil_r.
    + simpl PyStr.range_from.
      destruct (Nat.ltb_spec (length pre) (length (pre ++ [row1])))
        as [_|Hge]; [|rewrite length_app in Hge; simpl in Hge; lia].
      rewrite range_from_stop by (rewrite length_app; simpl; lia).
      simpl. unfold loop_body.
      rewrite lookup_app_r by lia. rewrite Nat.sub_diag. simpl.
      destruct (Nat.ltb_spec (length pre + 1) (length (pre ++ [row1])))
        as [Hlt|_]; [rewrite length_app in Hlt; simpl in Hlt; lia|].
      unfold records. simpl.
      destruct (extract_record strptime_strftime row1 None); simpl;
        [done|by rewrite app_nil_r].
    + simpl PyStr.range_from.
      destruct (Nat.ltb_spec (length pre) (length (pre ++ row1 :: row2 :: rest)))
        as [_|Hge]; [|rewrite length_app in Hge; simpl in Hge; lia].
      simpl fold_left.
      assert (Hbody : loop_body strptime_strftime (pre ++ row1 :: row2 :: rest)
                        acc (length pre)
                      = acc ++ from_option (fun e => [e]) []
                                 (extract_record strptime_strftime row1 (Some row2))).
      { unfold loop_body.
        rewrite lookup_app_r by lia. rewrite Nat.sub_diag. simpl.
        destruct (Nat.ltb_spec (length pre + 1)
                    (length (pre ++ row1 :: row2 :: rest))) as [_|Hge];
          [|rewrite length_app in Hge; simpl in Hge; lia].
        rewrite lookup_app_r by lia.
        replace (length pre + 1 - length pre)%nat with 1%nat by lia. simpl.
        destruct (extract_record strptime_strftime row1 (Some row2)); simpl;
          [done|by rewrite app_nil_r]. }
      rewrite Hbody.
      replace (pre ++ row1 :: row2 :: rest)
        with ((pre ++ [row1; row2]) ++ rest) by (by rewrite <- app_assoc).
      replace (length pre + 2)%nat with (length (pre ++ [row1; row2]))
        by (rewrite length_app; simpl; lia).
      rewrite IH by (simpl in Hfuel; lia).
      rewrite <- app_assoc. f_equal.
      unfold records. simpl.
      by destruct (extract_record strptime_strftime row1 (Some row2)).
Qed.

(** [process_data_table] on a located table of at least 3 rows. *)
Lemma process_located (p : ListingPage) (header : Row) (rest : list Row) :
  locate_table p = Some (header :: rest) ->
  (2 <= length rest)%nat ->
  process_data_table strptime_strftime p = records rest.
Proof.
  intros Hloc Hlen. unfold process_data_table. rewrite Hloc.
  destruct (Nat.ltb_spec (length (header :: rest)) 3) as [Hlt|_];
    [simpl in Hlt; lia|].
  unfold PyStr.range.
  change (header :: rest) with ([header] ++ rest).
  change 1%nat with (length [header]) at 1.
  rewrite loop_records; [done|simpl; lia].
Qed.

Lemma pair_up_app (before rest : list Row) :
  Nat.Even (length before) ->
  pair_up (before ++ rest) = pair_up before ++ pair_up rest.
Proof.
  revert before. fix IH 1. intros [|r1 [|r2 before]] Hev.
  - done.
  - destruct Hev as [k Hk]. simpl in Hk. lia.
  - simpl. f_equal. apply IH.
    destruct Hev as [k Hk]. simpl in Hk. exists (k - 1)%nat. lia.
Qed.



Lemma pair_up_cons (row1 : Row) (rest : list Row) :
  pair_up (row1 :: rest) = (row1, head rest) :: pair_up (tail rest).
Proof. by destruct rest. Qed.

(** The guard of lines 75-77 is the only way a pair yields no record. *)
Lemma extract_record_two_cells (c0 c1 : Cell) (tl : Row) (row2 : option Row) :
  extract_record strptime_strftime (c0 :: c1 :: tl) row2
  = Some {| event_name := (name_and_link c0).1;
            description := PyStr.strip (td_text c1);
            link := (name_and_link c0).2;
            when_ := (second_row_fields strptime_strftime row2).1.1;
            where_ := (second_row_fields strptime_strftime row2).1.2;
            deadline := (second_row_fields strptime_strftime row2).2 |}.
Proof.
  unfold extract_record. simpl.
  destruct (name_and_link c0) as [name href].
  by destruct (second_row_fields strptime_strftime row2) as [[w1 w2] dl].
Qed.

Lemma extract_record_short (row1 : Row) (row2 : option Row) :
  (length row1 < 2)%nat -> extract_record strptime_strftime row1 row2 = None.
Proof.
  intros Hlt. unfold extract_record.
  by destruct (Nat.ltb_spec (length row1) 2); [|lia].
Qed.


(** A pair whose first row has fewer than 2 cells leaves no record
    (the [continue] of line 77). *)
Lemma short_first_row_skipped (p : ListingPage) (header row1 : Row)
    (before rest : list Row) :
  locate_table p = Some (header :: before ++ row1 :: rest) ->
  Nat.Even (length before) ->
  (3 <= length (header :: before ++ row1 :: rest))%nat ->
  (length row1 < 2)%nat ->
  process_data_table strptime_strftime p = records before ++ records (tail rest).
Proof.
  intros Hloc Hev Hlen Hshort.
  rewrite (process_located _ _ _ Hloc) by (simpl in Hlen; lia).
  unfold records. rewrite pair_up_app by done. rewrite omap_app.
  rewrite pair_up_cons. simpl. by rewrite extract_record_short.
Qed.



End WithDateParser.

Definition text_cell (s : string) : Cell := {| td_text := s; td_anchor := None |}.
Definition link_cell (s href : string) : Cell :=
  {| td_text := s; td_anchor := Some {| a_text := s; a_href := Some href |} |}.
Definition header_row : Row := [text_cell "Event"; text_cell "When"; text_cell "Where";
                                text_cell "Deadline"].
Definition no_date : string -> option string := fun _ => None.

(** A listing page with a header and two complete pairs. *)
Definition two_pairs : list (Row * Row) :=
  [([link_cell "ICML 2025" "http://www.wikicfp.com/cfp/a"; text_cell "Machine Learning"],
    [text_cell "Jul 13, 2025"; text_cell "Vancouver"; text_cell "Jan 30, 2025"]);
   ([text_cell "KDD 2025"; text_cell "Knowledge Discovery"],
    [text_cell "Aug 3, 2025"; text_cell "Toronto"; text_cell "Feb 10, 2025 (Feb 3, 2025)"])].



(** A pair with a two-cell second row, then a pair without second row. *)
Definition ragged_page : ListingPage :=
  {| page_tables :=
       [[header_row;
         [link_cell "ICML 2025" "http://www.wikicfp.com/cfp/a"; text_cell "Machine Learning"];
         [text_cell "Jul 13, 2025"; text_cell "Vancouver"];
         [text_cell "KDD 2025"; text_cell "Knowledge Discovery"]]];
     page_next := NoNext |}.


(** A pair whose first row has a single cell. *)
Definition one_cell_page : ListingPage :=
  {| page_tables :=
       [[header_row;
         [link_cell "ICML 2025" "http://www.wikicfp.com/cfp/a"];
         [text_cell "Jul 13, 2025"; text_cell "Vancouver"; text_cell "Jan 30, 2025"]]];
     page_next := NoNext |}.


End ExtractorProps.

(** ** Pagination driver *)

Module PaginationProps.
Import Pagination.

Section Loop.

Variable strptime_strftime : string -> option string.
Variable site : Site.

(** The records of the pages at positions [from .. from + n - 1]. *)
Definition events_of (from n : nat) : list EventData :=
  concat (map (fun i => Extractor.process_data_table strptime_strftime (page_at site i))
            (seq from n)).

(** [n + 1] more pages are due and the first [n] of them have a working
    "next" link: the loop visits exactly these and stops on the last
    without calling [click_next_page] there. *)
Lemma loop_to_ceiling (max_pages : Z) (n : nat) :
  forall (fuel : nat) (st : LoopState),
    (page_count st + Z.of_nat (S n) = max_pages)%Z ->
    (forall j, (driver st <= j < driver st + n)%nat ->
               page_next (page_at site j) = NextOk) ->
    (S n <= fuel)%nat ->
    pagination_loop strptime_strftime site max_pages fuel st
    = Some {| driver := driver st + n;
              page_count := max_pages;
              all_events := all_events st ++ events_of (driver st) (S n);
              visited := visited st ++ seq (driver st) (S n);
              clicked := clicked st ++ seq (driver st) n |}.
Proof.
  induction n as [|n IH]; intros fuel st Hcount Hnext Hfuel;
    (destruct fuel as [|fuel]; [lia|]); cbn [pagination_loop].
  - destruct (Z.leb_spec max_pages (page_count st + 1)) as [_|Hlt]; [|lia].
    f_equal. unfold events_of. simpl.
    rewrite !app_nil_r, Nat.add_0_r. f_equal. lia.
  - destruct (Z.leb_spec max_pages (page_count st + 1)) as [Hle|_]; [lia|].
    unfold click_next_page. rewrite Hnext by lia. cbn [negb].
    rewrite IH; cbn [driver page_count all_events visited clicked].
    + f_equal. unfold events_of.
      replace (S (driver st) + n)%nat with (driver st + S n)%nat by lia.
      f_equal; by rewrite <- app_assoc.
    + lia.
    + intros j Hj. apply Hnext. lia.
    + lia.
Qed.

(** The loop ends within [max(1, max_pages)] iterations, whatever the
    site. *)
Lemma loop_terminates (max_pages : Z) (fuel : nat) :
  forall st : LoopState,
    (1 <= fuel)%nat ->
    (Z.to_nat (max_pages - page_count st) <= fuel)%nat ->
    is_Some (pagination_loop strptime_strftime site max_pages fuel st).
Proof.
  induction fuel as [|fuel IH]; intros st Hpos Hfuel; [lia|].
  cbn [pagination_loop].
  destruct (Z.leb_spec max_pages (page_count st + 1)) as [_|Hlt]; [by eexists|].
  destruct (click_next_page site (driver st)) as [driver' ok].
  destruct ok; cbn [negb]; [|by eexists].
  apply IH; cbn [page_count]; lia.
Qed.

Lemma paginate_total (max_pages : Z) :
  is_Some (paginate strptime_strftime site max_pages).
Proof. apply loop_terminates; cbn [page_count initial]; lia. Qed.

(** With a ceiling of 0 or less the first page is still processed. *)
Lemma nonpositive_ceiling_one_page (max_pages : Z) :
  (max_pages <= 0)%Z ->
  paginate strptime_strftime site max_pages
  = Some {| driver := 0; page_count := 1;
            all_events := events_of 0 1; visited := [0%nat]; clicked := [] |}.
Proof.
  intros Hle. unfold paginate. cbn [pagination_loop initial page_count].
  destruct (Z.leb_spec max_pages (0 + 1)) as [_|Hlt]; [|lia].
  unfold events_of. simpl. by rewrite app_nil_r.
Qed.

(** C1, as the code has it: over [N] pages that all have a working
    "next" link and with a ceiling [1 <= C < N], the loop returns after
    visiting exactly the first [C] pages, in order; it has called
    [click_next_page] on the first [C - 1] of them only, so it stops on
    page [C] although that page's "next" link works. *)
Theorem ceiling_stops_pagination (N C fuel : nat) :
  (1 <= C)%nat ->
  (C < N)%nat ->
  (forall i, (i < N)%nat -> page_next (page_at site i) = NextOk) ->
  (C <= fuel)%nat ->
  exists st,
    pagination_loop strptime_strftime site (Z.of_nat C) fuel initial = Some st /\
    visited st = seq 0 C /\
    length (visited st) = C /\
    all_events st = events_of 0 C /\
    clicked st = seq 0 (C - 1) /\
    driver st = (C - 1)%nat /\
    page_next (page_at site (driver st)) = NextOk.
Proof.
  intros Hpos Hlt Hnext Hfuel.
  destruct C as [|n]; [lia|].
  eexists. split.
  - apply loop_to_ceiling; [reflexivity| |lia].
    cbn [initial driver].
    intros j Hj. apply Hnext. lia.
  - cbn [initial driver visited all_events clicked app].
    replace (S n - 1)%nat with n by lia.
    repeat split; [by rewrite length_seq|].
    apply Hnext. lia.
Qed.

End Loop.

Definition endless_page : ListingPage :=
  {| page_tables := [ExtractorProps.header_row :: ExtractorProps.flatten ExtractorProps.two_pairs];
     page_next := NextOk |}.

Definition three_pages : Site :=
  {| reachable := true; pages := [endless_page; endless_page; endless_page] |}.

Lemma ceiling_stops_pagination_witness :
  exists st,
    pagination_loop ExtractorProps.no_date three_pages 2 2 initial = Some st /\
    visited st = [0; 1]%nat /\
    length (visited st) = 2%nat /\
    all_events st = events_of ExtractorProps.no_date three_pages 0 2 /\
    clicked st = [0%nat] /\
    driver st = 1%nat /\
    page_next (page_at three_pages (driver st)) = NextOk.
Proof.
  apply (ceiling_stops_pagination ExtractorProps.no_date three_pages 3 2 2).
  - lia.
  - lia.
  - intros [|[|[|i]]] Hi; [reflexivity|reflexivity|reflexivity|lia].
  - lia.
Defined.

Definition one_page : Site := {| reachable := true; pages := [endless_page] |}.

(** C1, as stated, fails at the ceiling 0: the single page has a working
    "next" link and [0 < 1], yet one page is visited, not zero. *)
Lemma zero_ceiling_visits_one_page :
  (0 < 1)%nat /\
  (forall i, (i < 1)%nat -> page_next (page_at one_page i) = NextOk) /\
  exists st,
    paginate ExtractorProps.no_date one_page 0 = Some st /\
    visited st = [0%nat] /\
    length (visited st) <> 0%nat.
Proof.
  split; [lia|]. split.
  - intros [|i] Hi; [reflexivity|lia].
  - eexists. split; [reflexivity|]. split; [reflexivity|]. simpl. lia.
Qed.

End PaginationProps.

(** ** Detail enricher and the detail pass of [main] *)

Module EnricherProps.
Import Enricher.

(** Decides that a literal key is not one of the nine. *)
Ltac not_a_key := apply (bool_decide_unpack _); vm_compute; exact I.

(** The first step of the body that raises, if any: how many fields were
    assigned before it, and its exception. *)
Definition raising_step (p : DetailPage) : option (nat * string) :=
  match title_tag p, driver_title p with
  | None, Raise e => Some (0%nat, e)
  | _, _ =>
      match pages_match p with
      | Some (Raise e) => Some (6%nat, e)
      | _ => None
      end
  end.

(** The fields assigned by the body. *)
Definition assigned (p : DetailPage) : nat :=
  match raising_step p with
  | Some (n, _) => n
  | None => 9%nat
  end.

Lemma extract_details_outcome (p : DetailPage) :
  dom (extract_details p ∅).1
    = list_to_set (C := gset string) (take (assigned p) detail_keys) /\
  (extract_details p ∅).2 = snd <$> raising_step p.
Proof.
  unfold extract_details, assigned, raising_step, detail_keys.
  destruct (title_tag p) as [t|], (driver_title p) as [dt|e],
    (pages_match p) as [[n|e']|];
    cbn [fst snd fmap option_fmap option_map take list_to_set];
    (split; [|done]);
    rewrite ?dom_insert_L, dom_empty_L; set_solver.
Qed.


(** The attribute set holds no key besides the nine and [error]. *)
Lemma scrape_lacks_key (web : Web) (event_url key : string) :
  key ∉ detail_keys -> key <> "error" ->
  scrape_event_details web event_url !! key = None.
Proof.
  intros Hkey Herr. unfold scrape_event_details.
  destruct (web event_url) as [p|e]; [|by rewrite lookup_insert_ne].
  destruct (extract_details_outcome p) as [Hdom _].
  assert (Hd : (extract_details p ∅).1 !! key = None).
  { apply not_elem_of_dom. rewrite Hdom, elem_of_list_to_set.
    intros Hin. apply Hkey. by apply (subseteq_take (assigned p)). }
  destruct (extract_details p ∅) as [d [e|]]; cbn [fst] in Hd; [|done].
  by rewrite lookup_insert_ne.
Qed.


(** A page that loads, with more digits after "Minimum Pages:" than [int]
    accepts: the six fields assigned before that step are kept, with the
    [error] field. *)
Definition long_number_page : DetailPage :=
  {| title_tag := Some "ICML 2025"; driver_title := Ok "ICML 2025";
     meta_desc := None; deadline_match := None; review_match := None;
     rank_match := None; workshop_text := false;
     pages_match := Some (Raise "ValueError");
     link_text := None; first_h5 := None |}.

Lemma failed_step_keeps_earlier_fields :
  dom (scrape_event_details (fun _ => Ok long_number_page) "http://www.wikicfp.com/cfp/a")
  = list_to_set (C := gset string)
      ["error"; "page_title"; "meta_description"; "detailed_deadline";
       "review_time"; "conference_rank"; "is_workshop"].
Proof.
  unfold scrape_event_details, extract_details. cbn.
  rewrite !dom_insert_L, dom_empty_L. cbn [list_to_set]. set_solver.
Qed.



End EnricherProps.

Module GatherProps.
Import Gather.

(** The record written for an event that has a link. *)
Definition merged (web : Web) (event : EventData) : gmap string Value :=
  Enricher.scrape_event_details web (default "" (link event)) ∪ event_dict event.

(** A written record carries a link that is neither empty nor the marker. *)
Definition has_link (d : gmap string Value) : Prop :=
  exists u, d !! "link" = Some (VStr u) /\ u <> "" /\ u <> "N/A".

Lemma link_present_spec (e : EventData) :
  link_present e = true <-> exists u, link e = Some u /\ u <> "" /\ u <> "N/A".
Proof.
  unfold link_present, PyStr.truthy. split.
  - destruct (link e) as [u|]; [|done]. intros Hu.
    apply andb_true_iff in Hu as [H1 H2].
    apply negb_true_iff, String.eqb_neq in H1, H2. by exists u.
  - intros (u & -> & H1 & H2).
    apply String.eqb_neq in H1, H2. by rewrite H1, H2.
Qed.

Lemma detail_step_spec (web : Web) (acc : list (gmap string Value)) (e : EventData) :
  detail_step web acc e = acc ++ (if link_present e then [merged web e] else []).
Proof.
  unfold detail_step, link_present, merged.
  destruct (link e) as [u|]; [|by rewrite app_nil_r].
  destruct (PyStr.truthy u && negb (String.eqb u "N/A")); [done|by rewrite app_nil_r].
Qed.

Lemma detail_pass_filter (web : Web) (all_events : list EventData) :
  detail_pass web all_events = map (merged web) (List.filter link_present all_events).
Proof.
  unfold detail_pass.
  enough (Hgen : forall acc,
             fold_left (detail_step web) all_events acc
             = acc ++ map (merged web) (List.filter link_present all_events))
    by apply (Hgen []).
  induction all_events as [|e rest IH]; intros acc; [by rewrite app_nil_r|].
  cbn [fold_left List.filter]. rewrite IH, detail_step_spec, <- app_assoc.
  by destruct (link_present e).
Qed.

Lemma scrape_no_link (web : Web) (u : string) :
  Enricher.scrape_event_details web u !! "link" = None.
Proof.
  apply EnricherProps.scrape_lacks_key; [EnricherProps.not_a_key|done].
Qed.

Lemma merged_has_link (web : Web) (e : EventData) :
  link_present e = true -> has_link (merged web e).
Proof.
  intros Hp. apply link_present_spec in Hp as (u & Hu & H1 & H2).
  exists u. split; [|done]. unfold merged.
  rewrite lookup_union_r by apply scrape_no_link.
  unfold event_dict. rewrite Hu. by simplify_map_eq.
Qed.

(** A record without a usable link leaves no trace in the output. *)
Lemma linkless_record_dropped (web : Web) (before after : list EventData)
    (e : EventData) :
  link e = Some "N/A" \/ link e = Some "" \/ link e = None ->
  detail_pass web (before ++ e :: after) = detail_pass web (before ++ after).
Proof.
  intros He. rewrite !detail_pass_filter, !List.filter_app. cbn [List.filter].
  assert (Hno : link_present e = false)
    by (unfold link_present; destruct He as [->|[->| ->]]; done).
  by rewrite Hno.
Qed.

(** C10: when the listing site is reached, [main] writes the merged
    records of exactly the events whose link is present, in order; every
    written record carries a link that is neither empty nor ["N/A"], and
    the events without one are not written at all. *)
Theorem only_linked_records_written (strptime_strftime : string -> option string)
    (site : Site) (web : Web) (max_pages : Z) :
  reachable site = true ->
  exists st written,
    Pagination.paginate strptime_strftime site max_pages = Some st /\
    main strptime_strftime site web max_pages = Some (Ok written) /\
    written = map (merged web) (List.filter link_present (Pagination.all_events st)) /\
    Forall has_link written /\
    (forall before e after,
        Pagination.all_events st = before ++ e :: after ->
        link e = Some "N/A" \/ link e = Some "" \/ link e = None ->
        written = detail_pass web (before ++ after)).
Proof.
  intros Hreach.
  destruct (PaginationProps.paginate_total strptime_strftime site max_pages)
    as [st Hst].
  exists st, (detail_pass web (Pagination.all_events st)).
  split; [done|]. split; [|split; [|split]].
  - unfold main. by rewrite Hreach, Hst.
  - apply detail_pass_filter.
  - rewrite detail_pass_filter. apply List.Forall_forall. intros d Hd.
    apply in_map_iff in Hd as (e & <- & He).
    apply filter_In in He as [_ He]. by apply merged_has_link.
  - intros before e after -> He. by apply linkless_record_dropped.
Qed.

(** A detail page that loads for every address. *)
Definition plain_page : DetailPage :=
  {| title_tag := Some "ICML 2025 : Machine Learning"; driver_title := Ok "ICML 2025";
     meta_desc := None; deadline_match := Some "Jan 30, 2025 "; review_match := None;
     rank_match := None; workshop_text := false; pages_match := Some (Ok 8%Z);
     link_text := None; first_h5 := None |}.

Definition plain_web : Web := fun _ => Ok plain_page.

Lemma only_linked_records_written_witness :
  exists st written,
    Pagination.paginate ExtractorProps.no_date PaginationProps.three_pages 2 = Some st /\
    main ExtractorProps.no_date PaginationProps.three_pages plain_web 2
      = Some (Ok written) /\
    written = map (merged plain_web)
                (List.filter link_present (Pagination.all_events st)) /\
    Forall has_link written /\
    (forall before e after,
        Pagination.all_events st = before ++ e :: after ->
        link e = Some "N/A" \/ link e = Some "" \/ link e = None ->
        written = detail_pass plain_web (before ++ after)).
Proof.
  apply (only_linked_records_written ExtractorProps.no_date
           PaginationProps.three_pages plain_web 2).
  reflexivity.
Defined.

End GatherProps.

(** ** Ranking resolver *)

Module ResolverProps.
Import Resolver.

Lemma with_dblp_link_found (first_row : Row) (result : RankingRecord) :
  found (with_dblp_link first_row result) = found result.
Proof.
  unfold with_dblp_link.
  destruct (first_row !! 5%nat) as [c|]; [|done].
  by destruct (td_anchor c).
Qed.

(** Whatever the [try] meets, [result] is either untouched or found. *)
Lemma attempt_default_or_found (l : Lookup) (r : RankingRecord) :
  attempt l default_result = Ok r -> r = default_result \/ found r = true.
Proof.
  unfold attempt. destruct (search l) as [table|e]; [|done]. cbn.
  destruct (PyStr.contains _ _); [intros [= <-]; by left|].
  destruct (result_rows table) as [|first_row rows]; [intros [= <-]; by left|].
  repeat match goal with
         | |- context [td first_row ?k] => destruct (td first_row k); cbn; [|done]
         end.
  intros [= <-]. right. by rewrite with_dblp_link_found.
Qed.

(** A record that is not found holds the defaults in every field. *)
Lemma not_found_is_default (conference_name : string) (l : Lookup) (r : RankingRecord) :
  get_core_ranking conference_name l = Ok r ->
  found r = false ->
  r = default_result.
Proof.
  unfold get_core_ranking. destruct (portal_loads l); [|done].
  destruct (attempt l default_result) as [r'|e] eqn:Hattempt.
  - intros [= <-] Hfound.
    destruct (attempt_default_or_found _ _ Hattempt) as [?|Hf]; [done|congruence].
  - by intros [= <-].
Qed.

(** "0 Results found." and an empty list of rows are negative results. *)
Lemma no_results_is_default (conference_name : string) (l : Lookup)
    (table : ResultsTable) :
  portal_loads l = true -> search l = Ok table ->
  PyStr.contains "0 Results found." (table_text table) = true
    \/ result_rows table = [] ->
  get_core_ranking conference_name l = Ok default_result.
Proof.
  intros Hload Hsearch Hnone. unfold get_core_ranking, attempt.
  rewrite Hload, Hsearch. cbn.
  destruct (PyStr.contains _ _); [done|].
  by destruct Hnone as [?| ->].
Qed.

(** Every failure inside the [try] is a negative result too. *)
Lemma caught_failure_is_default (conference_name : string) (l : Lookup) (e : string) :
  portal_loads l = true -> attempt l default_result = Raise e ->
  get_core_ranking conference_name l = Ok default_result.
Proof.
  intros Hload Hraise. unfold get_core_ranking. by rewrite Hload, Hraise.
Qed.

(** The portal does not load. *)
Definition portal_down : Lookup :=
  {| portal_loads := false; search_box := false; submit_button := false;
     results := None |}.

(** C8 fails on the code: when [driver.get(search_url)], which stands
    before the [try], raises, the exception leaves [get_core_ranking]
    and no record is returned. *)
Theorem navigation_failure_propagates :
  get_core_ranking "ICML" portal_down = Raise "WebDriverException".
Proof. reflexivity. Qed.

End ResolverProps.

(** ** Ranking cache and enrichment loop *)

Module RankingProps.
Import Ranking.

(** The path of the store file. *)
Definition cache_file (DATA_OUTPUT : option string) : string :=
  path_join (path_join (base_output_dir DATA_OUTPUT) "cache") "ranking_cache.json".

(** The keys of the records whose key can be computed. *)
Definition keys (conferences : list (gmap string Value)) : list string :=
  omap (fun conf => match extract_conference_name conf with
                    | Ok k => Some k
                    | Raise _ => None
                    end) conferences.

Section WithEnvironment.

Variable json_dump : gmap string RankingRecord -> string.
Variable json_load : string -> option (gmap string RankingRecord).
Variable DATA_OUTPUT : option string.
Variable portal : nat -> string -> Lookup.
Variable records_dump : list (gmap string Value) -> string.
Variable output_path : string.

Abbreviation load_ranking_cache := (load_ranking_cache json_load DATA_OUTPUT).
Abbreviation store_ranking_cache := (store_ranking_cache json_dump DATA_OUTPUT).
Abbreviation insert_and_store := (insert_and_store json_dump DATA_OUTPUT).
Abbreviation enrich_step := (enrich_step json_dump DATA_OUTPUT portal).
Abbreviation enrich_loop := (enrich_loop json_dump DATA_OUTPUT portal).
Abbreviation enrich_conferences :=
  (enrich_conferences json_dump json_load DATA_OUTPUT portal records_dump output_path).

Lemma store_then_lookup (cache : gmap string RankingRecord) (fs : gmap string string) :
  store_ranking_cache cache fs !! cache_file DATA_OUTPUT = Some (json_dump cache).
Proof. unfold Ranking.store_ranking_cache, cache_file. by rewrite lookup_insert_eq. Qed.

(** C4, as the code has it: without a store file the loader returns the
    empty mapping; with one it returns what the file decodes to, and
    raises [JSONDecodeError] when the file does not decode. *)
Theorem load_absent_decoded_or_raises (fs : gmap string string) :
  (fs !! cache_file DATA_OUTPUT = None -> load_ranking_cache fs = Ok ∅) /\
  (forall content cache,
      fs !! cache_file DATA_OUTPUT = Some content ->
      json_load content = Some cache ->
      load_ranking_cache fs = Ok cache) /\
  (forall content,
      fs !! cache_file DATA_OUTPUT = Some content ->
      json_load content = None ->
      load_ranking_cache fs = Raise "JSONDecodeError").
Proof.
  unfold Ranking.load_ranking_cache, cache_file.
  split; [by intros ->|]. split.
  - by intros content cache -> ->.
  - by intros content -> ->.
Qed.

(** C5: after the insertion of [k -> r] and the flush that follows it,
    a load from the files left behind returns a mapping that binds [k]
    to [r], provided the decoder reads back what the encoder wrote for
    the flushed mapping. *)
Theorem put_then_load (k : string) (r : RankingRecord) (st : RunState) :
  json_load (json_dump (<[k := r]> (ranking_cache st)))
    = Some (<[k := r]> (ranking_cache st)) ->
  exists cache,
    load_ranking_cache (files (insert_and_store k r st)) = Ok cache /\
    cache !! k = Some r.
Proof.
  intros Hcodec. exists (<[k := r]> (ranking_cache st)). split.
  - unfold Ranking.load_ranking_cache, Ranking.insert_and_store. cbn [files].
    fold (cache_file DATA_OUTPUT). by rewrite store_then_lookup, Hcodec.
  - apply lookup_insert_eq.
Qed.

(** One turn of the loop either leaves the state alone (the key cannot
    be computed, or it is cached), or logs one lookup for a key that
    the cache lacks and, when the resolver returns, binds that key. *)
Lemma enrich_step_cases (conf : gmap string Value) (st : RunState) :
  (enrich_step conf st).1 = st \/
  exists k,
    extract_conference_name conf = Ok k /\
    ranking_cache st !! k = None /\
    ((exists e,
         enrich_step conf st
         = ({| ranking_cache := ranking_cache st; files := files st;
               lookups := lookups st ++ [k]; slept := slept st |}, Raise e)) \/
     (exists r,
         Resolver.get_core_ranking k (portal (length (lookups st)) k) = Ok r /\
         enrich_step conf st
         = ({| ranking_cache := <[k := r]> (ranking_cache st);
               files := store_ranking_cache (<[k := r]> (ranking_cache st)) (files st);
               lookups := lookups st ++ [k]; slept := slept st + 2 |},
            Ok (<["core_data" := VCore r]> conf)))).
Proof.
  unfold Ranking.enrich_step.
  destruct (extract_conference_name conf) as [k|e]; [|by left].
  destruct (ranking_cache st !! k) as [cached|] eqn:Hk; [by left|].
  right. exists k. split; [done|]. split; [done|].
  destruct (Resolver.get_core_ranking k _) as [r|e].
  - right. by exists r.
  - left. by exists e.
Qed.

Lemma keys_cons_ok (conf : gmap string Value) (rest : list (gmap string Value))
    (k : string) :
  extract_conference_name conf = Ok k -> keys (conf :: rest) = k :: keys rest.
Proof. intros Hk. unfold keys. cbn [omap list_omap]. by rewrite Hk. Qed.

Lemma keys_cons_incl (conf : gmap string Value) (rest : list (gmap string Value))
    (k : string) :
  k ∈ keys rest -> k ∈ keys (conf :: rest).
Proof.
  intros Hk. unfold keys. cbn [omap list_omap].
  destruct (extract_conference_name conf); [by right|done].
Qed.

(** The invariant of the loop: the lookups of a run are for distinct
    keys of the input that the cache lacked, and a binding of the cache
    stays as it is. *)
Lemma enrich_loop_invariant (conferences : list (gmap string Value)) :
  forall st : RunState,
  exists new,
    lookups (enrich_loop conferences st).1 = lookups st ++ new /\
    NoDup new /\
    (forall k, k ∈ new -> ranking_cache st !! k = None /\ k ∈ keys conferences) /\
    (forall k r, ranking_cache st !! k = Some r ->
                 ranking_cache (enrich_loop conferences st).1 !! k = Some r).
Proof.
  induction conferences as [|conf rest IH]; intros st.
  { exists []. cbn [Ranking.enrich_loop fst]. rewrite app_nil_r.
    split; [done|]. split; [constructor|]. split; [|done].
    by intros k Hk%elem_of_nil. }
  cbn [Ranking.enrich_loop].
  destruct (enrich_step_cases conf st)
    as [Hsame|(k & Hkey & Hfree & [[e He]|(r & Hr & He)])].
  - destruct (enrich_step conf st) as [st1 [conf'|e]]; cbn in Hsame; subst st1.
    + destruct (IH st) as (new & Hlook & Hnd & Hnew & Hkeep).
      destruct (enrich_loop rest st) as [st2 out].
      cbn [fst lookups ranking_cache] in *.
      exists new. split; [done|]. split; [done|]. split; [|done].
      intros k Hk. destruct (Hnew k Hk) as [Hnone Hin].
      split; [done|]. by apply keys_cons_incl.
    + exists []. cbn [fst]. rewrite app_nil_r.
      split; [done|]. split; [constructor|]. split; [|done].
      by intros k Hk%elem_of_nil.
  - rewrite He. cbn [fst lookups ranking_cache]. exists [k].
    split; [done|]. split; [apply NoDup_singleton|]. split; [|done].
    intros k' ->%list_elem_of_singleton. split; [done|].
    rewrite (keys_cons_ok _ _ _ Hkey). by left.
  - rewrite He.
    destruct (IH {| ranking_cache := <[k := r]> (ranking_cache st);
                    files := store_ranking_cache (<[k := r]> (ranking_cache st))
                               (files st);
                    lookups := lookups st ++ [k]; slept := slept st + 2 |})
      as (new & Hlook & Hnd & Hnew & Hkeep).
    destruct (enrich_loop rest _) as [st2 out].
    cbn [fst lookups ranking_cache] in *.
    exists (k :: new).
    split; [by rewrite Hlook, <- app_assoc|]. split; [|split].
    + apply NoDup_cons. split; [|done].
      intros Hin. destruct (Hnew _ Hin) as [Hnone _].
      by rewrite lookup_insert_eq in Hnone.
    + intros k' Hk'. rewrite (keys_cons_ok _ _ _ Hkey).
      apply elem_of_cons in Hk' as [->|Hin]; [split; [done|by left]|].
      destruct (Hnew _ Hin) as [Hnone Hkeys].
      split; [|by right].
      destruct (decide (k = k')) as [->|Hne];
        [by rewrite lookup_insert_eq in Hnone|].
      by rewrite lookup_insert_ne in Hnone.
    + intros k' r' Hk'. apply Hkeep.
      destruct (decide (k = k')) as [->|Hne]; [congruence|].
      by rewrite lookup_insert_ne.
Qed.

(** A cached key is served without a lookup, a sleep or a write. *)
Lemma cached_key_no_lookup (conf : gmap string Value) (st : RunState)
    (k : string) (r : RankingRecord) :
  extract_conference_name conf = Ok k ->
  ranking_cache st !! k = Some r ->
  enrich_step conf st = (st, Ok (<["core_data" := VCore r]> conf)).
Proof. intros Hkey Hk. unfold Ranking.enrich_step. by rewrite Hkey, Hk. Qed.

(** A fresh key whose lookup returns is bound and flushed. *)
Lemma fresh_key_resolved (conf : gmap string Value) (st : RunState)
    (k : string) (r : RankingRecord) :
  extract_conference_name conf = Ok k ->
  ranking_cache st !! k = None ->
  Resolver.get_core_ranking k (portal (length (lookups st)) k) = Ok r ->
  enrich_step conf st
  = ({| ranking_cache := <[k := r]> (ranking_cache st);
        files := store_ranking_cache (<[k := r]> (ranking_cache st)) (files st);
        lookups := lookups st ++ [k]; slept := slept st + 2 |},
     Ok (<["core_data" := VCore r]> conf)).
Proof.
  intros Hkey Hk Hr. unfold Ranking.enrich_step. by rewrite Hkey, Hk, Hr.
Qed.

(** C6: a record with a fresh key [k] is enriched while the resolver
    answers [r1], then a second record with the same key while the
    resolver would answer a different [r2]: the cache and the store
    file keep [r1] for [k], the second record receives [r1] without a
    lookup, and no later turn of the loop changes the binding. *)
Theorem first_write_wins (conf1 conf2 : gmap string Value) (k : string)
    (r1 r2 : RankingRecord) (st : RunState) :
  extract_conference_name conf1 = Ok k ->
  extract_conference_name conf2 = Ok k ->
  ranking_cache st !! k = None ->
  Resolver.get_core_ranking k (portal (length (lookups st)) k) = Ok r1 ->
  Resolver.get_core_ranking k (portal (S (length (lookups st))) k) = Ok r2 ->
  r1 <> r2 ->
  let st1 := (enrich_step conf1 st).1 in
  let st2 := (enrich_step conf2 st1).1 in
  ranking_cache st1 !! k = Some r1 /\
  ranking_cache st2 !! k = Some r1 /\
  files st2 !! cache_file DATA_OUTPUT
    = Some (json_dump (<[k := r1]> (ranking_cache st))) /\
  lookups st2 = lookups st ++ [k] /\
  (enrich_step conf2 st1).2 = Ok (<["core_data" := VCore r1]> conf2) /\
  (forall later, ranking_cache (enrich_loop later st2).1 !! k = Some r1).
Proof.
  intros Hkey1 Hkey2 Hfresh Hr1 Hr2 Hne st1 st2.
  assert (Hst1 : st1 = {| ranking_cache := <[k := r1]> (ranking_cache st);
                          files := store_ranking_cache (<[k := r1]> (ranking_cache st))
                                     (files st);
                          lookups := lookups st ++ [k]; slept := slept st + 2 |})
    by (unfold st1; by rewrite (fresh_key_resolved _ _ _ _ Hkey1 Hfresh Hr1)).
  assert (Hk1 : ranking_cache st1 !! k = Some r1)
    by (rewrite Hst1; apply lookup_insert_eq).
  assert (Hstep2 : enrich_step conf2 st1 = (st1, Ok (<["core_data" := VCore r1]> conf2)))
    by (by apply (cached_key_no_lookup _ _ k)).
  assert (Hst2 : st2 = st1) by (unfold st2; by rewrite Hstep2).
  rewrite Hst2. split; [done|]. split; [done|].
  split; [rewrite Hst1; apply store_then_lookup|].
  split; [by rewrite Hst1|]. split; [by rewrite Hstep2|].
  intros later.
  destruct (enrich_loop_invariant later st1) as (_ & _ & _ & _ & Hkeep).
  by apply Hkeep.
Qed.

(** C7: in a run of [enrich_conferences] the names passed to the
    resolver are pairwise distinct keys of the input records, none of
    them a key of the loaded cache, so there are at most as many
    lookups as distinct keys; a record whose key is cached is served
    with no lookup. *)
Theorem one_lookup_per_key (conferences : list (gmap string Value))
    (fs : gmap string string) :
  let st := (enrich_conferences conferences fs).1 in
  NoDup (lookups st) /\
  (forall k, k ∈ lookups st -> k ∈ keys conferences) /\
  (forall cache k,
      load_ranking_cache fs = Ok cache -> is_Some (cache !! k) ->
      k ∉ lookups st) /\
  (length (lookups st) <= size (list_to_set (C := gset string) (keys conferences)))%nat /\
  (forall conf st' k r,
      extract_conference_name conf = Ok k ->
      ranking_cache st' !! k = Some r ->
      enrich_step conf st' = (st', Ok (<["core_data" := VCore r]> conf))).
Proof.
  intros st.
  assert (Hrun : NoDup (lookups st) /\
                 (forall k, k ∈ lookups st -> k ∈ keys conferences) /\
                 (forall cache k,
                     load_ranking_cache fs = Ok cache -> is_Some (cache !! k) ->
                     k ∉ lookups st)).
  { unfold st, Ranking.enrich_conferences.
    destruct (load_ranking_cache fs) as [loaded|e];
      [|cbn [fst lookups]; split; [constructor|];
        split; [by intros k Hk%elem_of_nil|by intros cache k [=]]].
    destruct (enrich_loop_invariant conferences
                {| ranking_cache := loaded; files := fs; lookups := []; slept := 0 |})
      as (new & Hlook & Hnd & Hnew & _).
    destruct (enrich_loop conferences _) as [st' [out|e]];
      cbn [fst lookups ranking_cache app] in *; rewrite Hlook.
    all: split; [done|]; split; [intros k Hk; by apply Hnew|].
    all: intros cache k [= <-] [r Hr] Hk; destruct (Hnew k Hk); congruence. }
  destruct Hrun as (Hnd & Hkeys & Hcached).
  split; [done|]. split; [done|]. split; [done|]. split.
  - rewrite <- (size_list_to_set (C := gset string) (lookups st)) by done.
    apply subseteq_size. intros k. rewrite !elem_of_list_to_set. apply Hkeys.
  - intros conf st' k r. apply (cached_key_no_lookup _ _ k).
Qed.

End WithEnvironment.

Definition icml : RankingRecord :=
  {| title := "International Conference on Machine Learning"; acronym := "ICML";
     source := "CORE2023"; rank := "A*"; note := ""; dblp_link := None;
     primary_for := "4611"; comments := "N/A"; average_rating := "4.8";
     found := true |}.

Definition empty_run (cache : gmap string RankingRecord) : RunState :=
  {| ranking_cache := cache; files := ∅; lookups := []; slept := 0 |}.

(** A store file cut short in the middle of a write. *)
Definition corrupt_store : gmap string string :=
  {[ "data_output/cache/ranking_cache.json" := "{ICML: {title" ]}.

(** C4, as stated, fails on a store file that does not decode: the
    loader raises instead of returning the empty mapping. *)
Lemma corrupt_store_raises :
  corrupt_store !! cache_file None = Some "{ICML: {title" /\
  Json.load "{ICML: {title" = None /\
  load_ranking_cache Json.load None corrupt_store = Raise "JSONDecodeError" /\
  load_ranking_cache Json.load None corrupt_store <> Ok ∅.
Proof. repeat split; try reflexivity. discriminate. Qed.

Lemma put_then_load_witness :
  exists cache,
    load_ranking_cache Json.load None
      (files (insert_and_store Json.dump None "ICML" icml
                (empty_run {[ "KDD" := Resolver.default_result ]}))) = Ok cache /\
    cache !! "ICML" = Some icml.
Proof.
  apply (put_then_load Json.dump Json.load None "ICML" icml
           (empty_run {[ "KDD" := Resolver.default_result ]})).
  vm_compute. reflexivity.
Defined.

Definition result_row (name acronym rank : string) : Row :=
  [ExtractorProps.text_cell name; ExtractorProps.text_cell acronym;
   ExtractorProps.text_cell "CORE2023"; ExtractorProps.text_cell rank;
   ExtractorProps.text_cell ""; ExtractorProps.text_cell "view";
   ExtractorProps.text_cell "4611"; ExtractorProps.text_cell "";
   ExtractorProps.text_cell "4.8"].

Definition answer (rank : string) : Lookup :=
  {| portal_loads := true; search_box := true; submit_button := true;
     results := Some {| table_text := "Showing results 1 - 1 of 1";
                        result_rows := [result_row "Machine Learning" "ICML" rank] |} |}.

(** A portal whose answer changes between the first and the second lookup. *)
Definition changing_portal : nat -> string -> Lookup :=
  fun n _ => match n with O => answer "A*" | _ => answer "B" end.

Definition ranked (rank : string) : RankingRecord :=
  {| title := "Machine Learning"; acronym := "ICML"; source := "CORE2023";
     rank := rank; note := ""; dblp_link := Some "N/A"; primary_for := "4611";
     comments := ""; average_rating := "4.8"; found := true |}.

Definition conf_a : gmap string Value :=
  {[ "page_title" := VStr "ICML 2025 : Machine Learning" ]}.
Definition conf_b : gmap string Value :=
  {[ "event_name" := VStr "ICML Workshops 2025" ]}.

Lemma first_write_wins_witness :
  ranking_cache
    (enrich_step Json.dump None changing_portal conf_b
       (enrich_step Json.dump None changing_portal conf_a (empty_run ∅)).1).1
    !! "ICML" = Some (ranked "A*").
Proof.
  refine (proj1 (proj2 (first_write_wins Json.dump None changing_portal
                          conf_a conf_b "ICML" (ranked "A*") (ranked "B") (empty_run ∅)
                          _ _ _ _ _ _))).
  - reflexivity.
  - reflexivity.
  - reflexivity.
  - reflexivity.
  - reflexivity.
  - discriminate.
Defined.

End RankingProps.


(** * Further properties *)

(** ** Python strings *)

Module PyStrProps.
Import PyStr.

(** Whether a character occurs in a string. *)
Fixpoint occurs (c : ascii) (s : string) : bool :=
  match s with
  | EmptyString => false
  | String c' s' => Ascii.eqb c' c || occurs c s'
  end.

(** A string that does not start with white space. *)
Definition clean_head (s : string) : Prop :=
  match s with
  | EmptyString => True
  | String c _ => is_space c = false
  end.

Lemma lstrip_clean (s : string) : clean_head (lstrip s).
Proof.
  induction s as [|c s IH]; [done|]. cbn [lstrip].
  by destruct (is_space c) eqn:Hc.
Qed.

Lemma lstrip_id (s : string) : clean_head s -> lstrip s = s.
Proof. destruct s as [|c s]; [done|]. cbn. by intros ->. Qed.

Lemma rstrip_clean (s : string) : clean_head s -> clean_head (rstrip s).
Proof.
  destruct s as [|c s]; [done|]. cbn [clean_head rstrip]. intros Hc.
  destruct (rstrip s); by rewrite ?Hc.
Qed.

Lemma rstrip_cons (c : ascii) (s : string) :
  rstrip (String c s)
  = match rstrip s with
    | EmptyString => if is_space c then EmptyString else String c EmptyString
    | r => String c r
    end.
Proof. done. Qed.

Lemma rstrip_idem (s : string) : rstrip (rstrip s) = rstrip s.
Proof.
  induction s as [|c s IH]; [done|]. rewrite rstrip_cons.
  destruct (rstrip s) as [|c' r] eqn:Hr.
  - destruct (is_space c) eqn:Hc; [done|]. rewrite rstrip_cons. cbn. by rewrite Hc.
  - rewrite rstrip_cons, IH. done.
Qed.

(** [s.strip().strip() == s.strip()] *)
Lemma strip_idem (s : string) : strip (strip s) = strip s.
Proof.
  unfold strip.
  rewrite (lstrip_id (rstrip (lstrip s))) by apply rstrip_clean, lstrip_clean.
  apply rstrip_idem.
Qed.

Lemma occurs_lstrip (c : ascii) (s : string) :
  occurs c s = false -> occurs c (lstrip s) = false.
Proof.
  induction s as [|c' s IH]; [done|]. cbn [lstrip occurs].
  intros [H1 H2]%orb_false_iff.
  destruct (is_space c'); [by apply IH|]. cbn. by rewrite H1, H2.
Qed.

Lemma occurs_rstrip (c : ascii) (s : string) :
  occurs c s = false -> occurs c (rstrip s) = false.
Proof.
  induction s as [|c' s IH]; [done|]. cbn [rstrip occurs].
  intros [H1 H2]%orb_false_iff. specialize (IH H2).
  destruct (rstrip s) as [|c'' r].
  - destruct (is_space c'); [done|]. cbn. by rewrite H1.
  - cbn [occurs] in *. by rewrite H1, IH.
Qed.

Lemma occurs_strip (c : ascii) (s : string) :
  occurs c s = false -> occurs c (strip s) = false.
Proof. intros H. by apply occurs_rstrip, occurs_lstrip. Qed.

(** The first piece of a split holds no separator. *)
Lemma occurs_split_head (sep : ascii) (s : string) :
  occurs sep (hd EmptyString (split sep s)) = false.
Proof.
  induction s as [|c s IH]; [done|]. cbn [split].
  destruct (Ascii.eqb c sep) eqn:Hc; [done|].
  destruct (split sep s) as [|h t]; cbn [hd occurs] in *; by rewrite Hc.
Qed.

(** Without a separator there is nothing to split. *)
Lemma split_no_sep (sep : ascii) (s : string) :
  occurs sep s = false -> split sep s = [s].
Proof.
  induction s as [|c s IH]; [done|]. cbn [split occurs].
  intros [H1 H2]%orb_false_iff. by rewrite H1, (IH H2).
Qed.

Lemma split_nonempty (sep : ascii) (s : string) : split sep s <> [].
Proof.
  destruct s as [|c s]; [done|]. cbn [split].
  destruct (Ascii.eqb c sep); [done|]. by destruct (split sep s).
Qed.

End PyStrProps.

(** ** Record extractor, continued *)

Module ExtractorMore.
Import Extractor ExtractorProps.

Lemma split_head_app (sep : ascii) (s tail : string) :
  PyStrProps.occurs sep s = false ->
  hd EmptyString (PyStr.split sep (s ++ String sep tail)%string) = s.
Proof.
  induction s as [|c s IH].
  - intros _. change (hd EmptyString (PyStr.split sep (String sep tail)) = EmptyString).
    cbn [PyStr.split]. by rewrite Ascii.eqb_refl.
  - change (String c s ++ String sep tail)%string
      with (String c (s ++ String sep tail)%string).
    cbn [PyStr.split PyStrProps.occurs].
    intros [H1 H2]%orb_false_iff. rewrite H1. specialize (IH H2).
    destruct (PyStr.split sep (s ++ String sep tail)%string) as [|h t] eqn:Hs.
    + by apply PyStrProps.split_nonempty in Hs.
    + cbn [hd] in *. by rewrite IH.
Qed.

Lemma occurs_app_sep (sep : ascii) (s tail : string) :
  PyStrProps.occurs sep (s ++ String sep tail)%string = true.
Proof.
  induction s as [|c s IH].
  - change (PyStrProps.occurs sep (String sep tail) = true).
    cbn [PyStrProps.occurs]. by rewrite Ascii.eqb_refl.
  - change (String c s ++ String sep tail)%string
      with (String c (s ++ String sep tail)%string).
    cbn [PyStrProps.occurs]. by rewrite IH, orb_true_r.
Qed.

Lemma length_pair_up (rows : list Row) :
  length (pair_up rows) = ((length rows + 1) / 2)%nat.
Proof.
  induction rows as [rows IH] using (induction_ltof1 _ (@length Row)).
  unfold ltof in IH.
  destruct rows as [|row1 [|row2 rest]]; [done|done|].
  cbn [pair_up length]. rewrite IH by (simpl; lia).
  replace (S (S (length rest)) + 1)%nat with (length rest + 1 + 1 * 2)%nat by lia.
  rewrite Nat.div_add by lia. lia.
Qed.

Lemma length_omap_le {A B} (f : A -> option B) (l : list A) :
  (length (omap f l) <= length l)%nat.
Proof.
  induction l as [|x l IH]; [done|]. cbn [omap list_omap length].
  destruct (f x); cbn [length]; lia.
Qed.

Section WithDateParser.

Variable strptime_strftime : string -> option string.


(** There are never more records than pairs of rows: at most half the
    number of rows of the table. *)
Theorem record_count_bound (p : ListingPage) (rows : list Row) :
  locate_table p = Some rows ->
  (length (process_data_table strptime_strftime p) <= length rows / 2)%nat.
Proof.
  intros Hloc. destruct rows as [|header rest].
  { unfold process_data_table. rewrite Hloc. simpl. lia. }
  destruct (Nat.le_gt_cases 2 (length rest)) as [Hlen|Hlen].
  2: { unfold process_data_table. rewrite Hloc.
       destruct (Nat.ltb_spec (length (header :: rest)) 3) as [_|Hge];
         simpl in *; lia. }
  rewrite (process_located _ _ _ _ Hloc Hlen).
  unfold records.
  etransitivity; [apply length_omap_le|].
  rewrite length_pair_up. cbn [length].
  replace (S (length rest)) with (length rest + 1)%nat by lia. done.
Qed.

(** Everything from the first ["("] on is ignored by [format_deadline]. *)
Theorem format_deadline_drops_parenthetical (s tail : string) :
  PyStrProps.occurs "(" s = false ->
  format_deadline strptime_strftime (s ++ String "(" tail)%string
  = match strptime_strftime (PyStr.strip s) with
    | Some d => d
    | None => PyStr.strip s
    end.
Proof.
  intros Hs. unfold format_deadline.
  assert (Hna : String.eqb (s ++ String "(" tail)%string "N/A" = false).
  { apply String.eqb_neq. intros Heq.
    pose proof (occurs_app_sep "(" s tail) as Hocc.
    by rewrite Heq in Hocc. }
  by rewrite Hna, split_head_app.
Qed.

(** [format_deadline] is idempotent as soon as the dates that the parser
    writes hold no ["("], no outer white space and are not themselves
    parsed. *)
Theorem format_deadline_idempotent (s : string) :
  (forall t d, strptime_strftime t = Some d ->
               PyStrProps.occurs "(" d = false /\
               PyStr.strip d = d /\
               strptime_strftime d = None) ->
  format_deadline strptime_strftime (format_deadline strptime_strftime s)
  = format_deadline strptime_strftime s.
Proof.
  intros Hout.
  assert (Hclean : forall t,
             PyStrProps.occurs "(" t = false -> PyStr.strip t = t ->
             strptime_strftime t = None ->
             format_deadline strptime_strftime t = t).
  { intros t Hparen Hstrip Hnone. unfold format_deadline.
    destruct (String.eqb t "N/A"); [done|].
    rewrite (PyStrProps.split_no_sep _ _ Hparen). cbn [hd].
    by rewrite Hstrip, Hnone. }
  destruct (String.eqb s "N/A") eqn:Hna.
  { by apply String.eqb_eq in Hna as ->. }
  set (t := PyStr.strip (hd EmptyString (PyStr.split "(" s))).
  assert (Hs : format_deadline strptime_strftime s
               = match strptime_strftime t with Some d => d | None => t end)
    by (unfold format_deadline; by rewrite Hna).
  rewrite Hs.
  destruct (strptime_strftime t) as [d|] eqn:Ht.
  - destruct (Hout t d Ht) as (H1 & H2 & H3). by apply Hclean.
  - apply Hclean; [|apply PyStrProps.strip_idem|done].
    apply PyStrProps.occurs_strip, PyStrProps.occurs_split_head.
Qed.

End WithDateParser.

(** A date parser that knows one date. *)
Definition one_date (s : string) : option string :=
  if String.eqb s "Jan 30, 2025" then Some "30/01/25" else None.

Lemma one_date_output (t d : string) :
  one_date t = Some d ->
  PyStrProps.occurs "(" d = false /\ PyStr.strip d = d /\ one_date d = None.
Proof.
  unfold one_date. destruct (String.eqb t "Jan 30, 2025"); [|done].
  intros [= <-]. by vm_compute.
Qed.

Lemma format_deadline_idempotent_witness :
  format_deadline one_date (format_deadline one_date "Jan 30, 2025 (Jan 23, 2025)")
  = format_deadline one_date "Jan 30, 2025 (Jan 23, 2025)".
Proof.
  apply (format_deadline_idempotent one_date "Jan 30, 2025 (Jan 23, 2025)").
  apply one_date_output.
Defined.

Lemma format_deadline_drops_parenthetical_witness :
  format_deadline one_date ("Jan 30, 2025 " ++ String "(" "Jan 23, 2025)")%string
  = "30/01/25".
Proof.
  apply (format_deadline_drops_parenthetical one_date "Jan 30, 2025 " "Jan 23, 2025)").
  reflexivity.
Defined.

Lemma record_count_bound_witness :
  (length (process_data_table no_date ragged_page) <= 4 / 2)%nat.
Proof.
  apply (record_count_bound no_date ragged_page
           [header_row;
            [link_cell "ICML 2025" "http://www.wikicfp.com/cfp/a"; text_cell "Machine Learning"];
            [text_cell "Jul 13, 2025"; text_cell "Vancouver"];
            [text_cell "KDD 2025"; text_cell "Knowledge Discovery"]]).
  reflexivity.
Defined.

Lemma short_first_row_skipped_witness :
  process_data_table no_date one_cell_page = [].
Proof.
  apply (short_first_row_skipped no_date one_cell_page header_row
           [link_cell "ICML 2025" "http://www.wikicfp.com/cfp/a"] []
           [[text_cell "Jul 13, 2025"; text_cell "Vancouver"; text_cell "Jan 30, 2025"]]).
  - reflexivity.
  - exists 0%nat. reflexivity.
  - simpl. lia.
  - simpl. lia.
Defined.

End ExtractorMore.

(** ** Pagination driver, continued *)

Module PaginationMore.
Import Pagination PaginationProps.

Section Loop.

Variable strptime_strftime : string -> option string.
Variable site : Site.
Variable max_pages : Z.

Lemma events_of_S (n : nat) :
  events_of strptime_strftime site 0 (S n)
  = events_of strptime_strftime site 0 n
      ++ Extractor.process_data_table strptime_strftime (page_at site n).
Proof.
  unfold events_of. rewrite seq_S, map_app, concat_app. cbn [map concat Nat.add].
  by rewrite app_nil_r.
Qed.

(** A state from which the loop goes on: [n] pages were visited, all of
    them with a working "next" link that was clicked. *)
Definition running (st : LoopState) (n : nat) : Prop :=
  visited st = seq 0 n /\
  clicked st = seq 0 n /\
  driver st = n /\
  page_count st = Z.of_nat n /\
  all_events st = events_of strptime_strftime site 0 n /\
  (forall j, (j < n)%nat -> page_next (page_at site j) = NextOk) /\
  (n = 0%nat \/ (Z.of_nat n < max_pages)%Z).

(** A state in which the loop has ended after [m] pages. *)
Definition stopped (st : LoopState) (m : nat) : Prop :=
  (1 <= m)%nat /\
  visited st = seq 0 m /\
  page_count st = Z.of_nat m /\
  all_events st = events_of strptime_strftime site 0 m /\
  driver st = (m - 1)%nat /\
  (forall j, (j < m - 1)%nat -> page_next (page_at site j) = NextOk) /\
  ((Z.of_nat m = Z.max 1 max_pages /\ clicked st = seq 0 (m - 1)) \/
   ((Z.of_nat m < max_pages)%Z /\ clicked st = seq 0 m /\
    page_next (page_at site (m - 1)) <> NextOk)).

Lemma loop_shape (fuel : nat) :
  forall (st st' : LoopState) (n : nat),
    running st n ->
    pagination_loop strptime_strftime site max_pages fuel st = Some st' ->
    exists m, stopped st' m.
Proof.
  induction fuel as [|fuel IH]; intros st st' n Hrun Hloop; [done|].
  destruct Hrun as (Hvis & Hclk & Hdrv & Hcnt & Hev & Hnext & Hlow).
  cbn [pagination_loop] in Hloop. rewrite Hdrv, Hcnt, Hvis, Hev, Hclk in Hloop.
  rewrite <- events_of_S, <- seq_S in Hloop.
  destruct (Z.leb_spec max_pages (Z.of_nat n + 1)) as [Hceil|Hbelow].
  - injection Hloop as <-. exists (S n). unfold stopped.
    cbn [visited page_count all_events driver clicked].
    replace (S n - 1)%nat with n by lia.
    split; [lia|]. split; [done|]. split; [lia|]. split; [done|].
    split; [done|]. split; [done|]. left. split; [lia|done].
  - unfold click_next_page in Hloop.
    destruct (page_next (page_at site n)) eqn:Hpage; cbn [negb] in Hloop.
    + injection Hloop as <-. exists (S n). unfold stopped.
      cbn [visited page_count all_events driver clicked].
      replace (S n - 1)%nat with n by lia.
      split; [lia|]. split; [done|]. split; [lia|]. split; [done|].
      split; [done|]. split; [done|]. right. rewrite Hpage.
      split; [lia|]. split; [reflexivity|done].
    + injection Hloop as <-. exists (S n). unfold stopped.
      cbn [visited page_count all_events driver clicked].
      replace (S n - 1)%nat with n by lia.
      split; [lia|]. split; [done|]. split; [lia|]. split; [done|].
      split; [done|]. split; [done|]. right. rewrite Hpage.
      split; [lia|]. split; [reflexivity|done].
    + apply (IH _ _ (S n)) in Hloop; [done|]. unfold running.
      cbn [visited page_count all_events driver clicked].
      split; [done|]. split; [reflexivity|]. split; [done|].
      split; [lia|]. split; [done|]. split; [|right; lia].
      intros j Hj. destruct (decide (j = n)) as [->|Hne]; [done|].
      apply Hnext. lia.
Qed.

Lemma running_initial : running initial 0.
Proof.
  unfold running, initial. cbn.
  repeat split; try done; [intros j Hj; lia|by left].
Qed.

(** Whatever the site and the ceiling, the pagination returns after
    visiting the pages [0 .. m-1] once each, in order, with
    [1 <= m <= max(1, max_pages)]; the events are those of these pages in
    visit order; every page before the last had a working "next" link;
    and it stops either at the ceiling, without calling [click_next_page]
    on the last page, or below it on a page whose "next" link is missing
    or broken. *)
Theorem pagination_outcome :
  exists st m,
    paginate strptime_strftime site max_pages = Some st /\
    (1 <= m)%nat /\ (Z.of_nat m <= Z.max 1 max_pages)%Z /\
    visited st = seq 0 m /\
    all_events st = events_of strptime_strftime site 0 m /\
    (forall j, (j < m - 1)%nat -> page_next (page_at site j) = NextOk) /\
    ((Z.of_nat m = Z.max 1 max_pages /\ clicked st = seq 0 (m - 1)) \/
     ((Z.of_nat m < max_pages)%Z /\ clicked st = seq 0 m /\
      page_next (page_at site (m - 1)) <> NextOk)).
Proof.
  destruct (paginate_total strptime_strftime site max_pages) as [st Hst].
  destruct (loop_shape _ _ _ _ running_initial Hst)
    as (m & Hm & Hvis & _ & Hev & _ & Hnext & Hend).
  exists st, m. split; [done|]. split; [done|]. split; [|done].
  destruct Hend as [[Heq _]|[Hlt _]]; lia.
Qed.

(** The pagination ends on the first page whose "next" link is missing or
    broken, when that page comes before the ceiling: pages [0 .. k] are
    visited, and the link of page [k] is tried unless [k + 1] is the
    ceiling itself. *)
Theorem stops_at_first_dead_end (k : nat) :
  (forall j, (j < k)%nat -> page_next (page_at site j) = NextOk) ->
  page_next (page_at site k) <> NextOk ->
  (Z.of_nat k < max_pages)%Z ->
  exists st,
    paginate strptime_strftime site max_pages = Some st /\
    visited st = seq 0 (S k) /\
    all_events st = events_of strptime_strftime site 0 (S k) /\
    clicked st = seq 0 (if (Z.of_nat (S k) <? max_pages)%Z then S k else k).
Proof.
  intros Hok Hdead Hbelow.
  destruct (paginate_total strptime_strftime site max_pages) as [st Hst].
  destruct (loop_shape _ _ _ _ running_initial Hst)
    as (m & Hm & Hvis & _ & Hev & _ & Hnext & Hend).
  assert (Hmk : m = S k).
  { destruct (Nat.lt_trichotomy (m - 1) k) as [Hlt|[Heq|Hgt]]; [|lia|].
    - destruct Hend as [[Heq _]|(_ & _ & Hno)]; [lia|].
      by rewrite Hok in Hno.
    - by rewrite Hnext in Hdead. }
  subst m. exists st. split; [done|]. split; [done|]. split; [done|].
  replace (S k - 1)%nat with k in Hend by lia.
  destruct (Z.ltb_spec (Z.of_nat (S k)) max_pages) as [Hlt|Hge].
  - destruct Hend as [[Heq _]|(_ & Hclk & _)]; [lia|done].
  - destruct Hend as [[_ Hclk]|(Hlt & _)]; [done|lia].
Qed.

End Loop.

(** Two pages, the second without a "next" link. *)
Definition two_page_site : Site :=
  {| reachable := true;
     pages := [endless_page;
               {| page_tables := page_tables endless_page; page_next := NoNext |}] |}.

Lemma stops_at_first_dead_end_witness :
  exists st,
    paginate ExtractorProps.no_date two_page_site 50 = Some st /\
    visited st = [0; 1]%nat /\
    all_events st = events_of ExtractorProps.no_date two_page_site 0 2 /\
    clicked st = [0; 1]%nat.
Proof.
  apply (stops_at_first_dead_end ExtractorProps.no_date two_page_site 50 1).
  - intros [|j] Hj; [reflexivity|lia].
  - discriminate.
  - lia.
Defined.

Lemma nonpositive_ceiling_one_page_witness :
  paginate ExtractorProps.no_date two_page_site (-3)
  = Some {| driver := 0; page_count := 1;
            all_events := events_of ExtractorProps.no_date two_page_site 0 1;
            visited := [0%nat]; clicked := [] |}.
Proof.
  apply (nonpositive_ceiling_one_page ExtractorProps.no_date two_page_site (-3)).
  lia.
Defined.

End PaginationMore.

(** ** Detail enricher and detail pass, continued *)

Module GatherMore.
Import Gather GatherProps.

(** The six keys of a listing record. *)
Definition listing_keys : list string :=
  ["event_name"; "description"; "link"; "when"; "where"; "deadline"].

Lemma prefix_rstrip (n s : string) :
  String.prefix n (PyStr.rstrip s) = true -> String.prefix n s = true.
Proof.
  revert n. induction s as [|c s IH]; intros n; [done|].
  rewrite PyStrProps.rstrip_cons. destruct n as [|a n]; [done|].
  destruct (PyStr.rstrip s) as [|c' r] eqn:Hr.
  - destruct (PyStr.is_space c); [done|]. cbn [String.prefix].
    destruct (ascii_dec a c); [|done]. destruct n; [|done]. intros _. by destruct s.
  - cbn [String.prefix]. destruct (ascii_dec a c); [|done]. apply IH.
Qed.

Lemma contains_empty_hay (n : string) :
  PyStr.contains n EmptyString = true -> n = EmptyString.
Proof. destruct n; [done|]. by cbn. Qed.

Lemma contains_empty_needle (s : string) : PyStr.contains EmptyString s = true.
Proof. by destruct s. Qed.

Lemma contains_rstrip (n s : string) :
  PyStr.contains n (PyStr.rstrip s) = true -> PyStr.contains n s = true.
Proof.
  induction s as [|c s IH]; [done|].
  intros Hc. cbn [PyStr.contains]. apply orb_true_iff.
  pose proof (prefix_rstrip n (String c s)) as Hpre.
  rewrite PyStrProps.rstrip_cons in Hc, Hpre.
  destruct (PyStr.rstrip s) as [|c' r] eqn:Hr.
  - destruct (PyStr.is_space c).
    + apply contains_empty_hay in Hc as ->. by left.
    + cbn [PyStr.contains] in Hc. apply orb_true_iff in Hc as [Hc|Hc]; [left; by apply Hpre|].
      apply contains_empty_hay in Hc as ->. by left.
  - cbn [PyStr.contains] in Hc. apply orb_true_iff in Hc as [Hc|Hc]; [left; by apply Hpre|].
    right. by apply IH.
Qed.

Lemma contains_lstrip (n s : string) :
  PyStr.contains n (PyStr.lstrip s) = true -> PyStr.contains n s = true.
Proof.
  induction s as [|c s IH]; [done|]. cbn [PyStr.lstrip].
  destruct (PyStr.is_space c); [|done].
  intros Hc. cbn [PyStr.contains]. rewrite (IH Hc). apply orb_true_r.
Qed.

Lemma contains_strip (n s : string) :
  PyStr.contains n (PyStr.strip s) = true -> PyStr.contains n s = true.
Proof. intros H. by apply contains_lstrip, contains_rstrip. Qed.

Lemma append_empty_r (s : string) : (s ++ "")%string = s.
Proof.
  induction s as [|c s IH]; [done|].
  change (String c s ++ "")%string with (String c (s ++ "")%string). by rewrite IH.
Qed.

Lemma single_node_no_label (texts : list string) :
  (length texts <= 1)%nat ->
  PyStr.contains "Categories" (Enricher.get_text texts) = false ->
  PyStr.contains "Categories" (Enricher.get_text_strip texts) = false.
Proof.
  destruct texts as [|t [|t' texts]]; [done| |simpl; lia].
  intros _. unfold Enricher.get_text, Enricher.get_text_strip.
  cbn [map List.filter fold_right]. rewrite append_empty_r. intros Hraw.
  destruct (PyStr.truthy (PyStr.strip t)); [|done].
  cbn [fold_right]. rewrite append_empty_r.
  destruct (PyStr.contains "Categories" (PyStr.strip t)) eqn:Hs; [|done].
  apply contains_strip in Hs. congruence.
Qed.

(** When every anchor of the first [<h5>] holds at most one text node,
    the categories never hold the label link: no entry contains
    ["Categories"]; and without a first [<h5>] whose text contains the
    label the list is empty. The list is what a body that does not raise
    leaves under the key [categories]. *)
Theorem categories_exclude_label (p : DetailPage) :
  (forall h, first_h5 p = Some h ->
             Forall (fun texts => (length texts <= 1)%nat) (Enricher.anchors h)) ->
  exists cats,
    Enricher.categories p = VList cats /\
    ((Enricher.extract_details p ∅).2 = None ->
     (Enricher.extract_details p ∅).1 !! "categories" = Some (VList cats)) /\
    Forall (fun c => PyStr.contains "Categories" c = false) cats /\
    ((first_h5 p = None \/
      exists h, first_h5 p = Some h /\
                PyStr.contains "Categories" (Enricher.heading_text h) = false) ->
     cats = []).
Proof.
  intros Hsingle.
  assert (Hkey : forall cats, Enricher.categories p = VList cats ->
                   (Enricher.extract_details p ∅).2 = None ->
                   (Enricher.extract_details p ∅).1 !! "categories" = Some (VList cats)).
  { intros cats Hcats. unfold Enricher.extract_details.
    destruct (title_tag p), (driver_title p), (pages_match p) as [[?|?]|];
      cbn [fst snd]; try done; intros _; rewrite lookup_insert_eq; by rewrite Hcats. }
  unfold Enricher.categories in *.
  destruct (first_h5 p) as [h|].
  - specialize (Hsingle h eq_refl).
    destruct (PyStr.contains "Categories" (Enricher.heading_text h)) eqn:Hh.
    + eexists. split; [done|]. split; [by apply Hkey|]. split.
      * apply List.Forall_forall. intros c Hc.
        apply in_map_iff in Hc as (a & <- & Ha).
        apply filter_In in Ha as [Hin Ha]. apply negb_true_iff in Ha.
        apply single_node_no_label; [|done].
        rewrite List.Forall_forall in Hsingle. by apply Hsingle.
      * intros [[=]|(h' & [= <-] & Hno)]. congruence.
    + exists []. split; [done|]. split; [by apply Hkey|]. by split.
  - exists []. split; [done|]. split; [by apply Hkey|]. by split.
Qed.

Definition categories_page (h : Heading) : DetailPage :=
  {| title_tag := Some "ICML 2025"; driver_title := Ok "ICML 2025";
     meta_desc := None; deadline_match := None; review_match := None;
     rank_match := None; workshop_text := false; pages_match := None;
     link_text := None; first_h5 := Some h |}.

(** An anchor whose text is split over two nodes passes the filter on its
    raw text and is stored as the label itself. *)
Lemma split_label_is_stored :
  Enricher.categories
    (categories_page [HText "Categories: "; HAnchor ["Cate "; "gories"]])
  = VList ["Categories"].
Proof. reflexivity. Qed.

Definition labelled_heading : Heading :=
  [HText "Categories: "; HAnchor ["Categories"]; HText " ";
   HAnchor [" machine learning "]; HAnchor ["data mining"]].

Lemma categories_exclude_label_witness :
  exists cats,
    Enricher.categories (categories_page labelled_heading) = VList cats /\
    ((Enricher.extract_details (categories_page labelled_heading) ∅).2 = None ->
     (Enricher.extract_details (categories_page labelled_heading) ∅).1 !! "categories"
     = Some (VList cats)) /\
    Forall (fun c => PyStr.contains "Categories" c = false) cats /\
    ((first_h5 (categories_page labelled_heading) = None \/
      exists h, first_h5 (categories_page labelled_heading) = Some h /\
                PyStr.contains "Categories" (Enricher.heading_text h) = false) ->
     cats = []).
Proof.
  apply (categories_exclude_label (categories_page labelled_heading)).
  intros h [= <-]. repeat constructor.
Defined.

Lemma scrape_lacks (web : Web) (u key : string) :
  key ∈ listing_keys -> Enricher.scrape_event_details web u !! key = None.
Proof.
  intros Hkey. unfold listing_keys in Hkey.
  repeat (apply elem_of_cons in Hkey as [->|Hkey];
          [apply EnricherProps.scrape_lacks_key; [EnricherProps.not_a_key|done]|]).
  by apply elem_of_nil in Hkey.
Qed.

Lemma merge_keeps_listing_fields_aux (web : Web) (u : string) (e : EventData) :
  let written := Enricher.scrape_event_details web u ∪ event_dict e in
  written !! "event_name" = Some (VStr (event_name e)) /\
  written !! "description" = Some (VStr (description e)) /\
  written !! "link" = Some (of_href (link e)) /\
  written !! "when" = Some (VStr (when_ e)) /\
  written !! "where" = Some (VStr (where_ e)) /\
  written !! "deadline" = Some (VStr (deadline e)).
Proof.
  cbn zeta.
  repeat split;
    (rewrite lookup_union_r
       by (apply scrape_lacks; unfold listing_keys;
           apply (bool_decide_unpack _); vm_compute; exact I));
    unfold event_dict; by simplify_map_eq.
Qed.

(** The merge [{**event, **details}] never changes a listing field: in
    every record that the detail pass writes, the six listing keys hold
    the values extracted from the listing page, whatever the detail page
    gave. *)
Theorem merge_keeps_listing_fields (web : Web) (all_events : list EventData) :
  Forall (fun written =>
            exists e, In e all_events /\
              written !! "event_name" = Some (VStr (event_name e)) /\
              written !! "description" = Some (VStr (description e)) /\
              written !! "link" = Some (of_href (link e)) /\
              written !! "when" = Some (VStr (when_ e)) /\
              written !! "where" = Some (VStr (where_ e)) /\
              written !! "deadline" = Some (VStr (deadline e)))
         (detail_pass web all_events).
Proof.
  rewrite detail_pass_filter. apply List.Forall_forall. intros written Hw.
  apply in_map_iff in Hw as (e & <- & He). apply filter_In in He as [He _].
  exists e. split; [done|]. apply merge_keeps_listing_fields_aux.
Qed.

(** A detail page that cannot be fetched does not lose the record: the
    listing fields are written with the [error] field added. *)
Theorem failed_fetch_keeps_record (web : Web) (all_events : list EventData)
    (e : EventData) (u err : string) :
  In e all_events ->
  link e = Some u -> u <> "" -> u <> "N/A" ->
  web u = Raise err ->
  In (<["error" := VStr err]> (event_dict e)) (detail_pass web all_events).
Proof.
  intros Hin Hlink Hne Hna Hweb. rewrite detail_pass_filter.
  apply in_map_iff. exists e. split.
  - unfold merged, Enricher.scrape_event_details. rewrite Hlink.
    change (default "" (Some u)) with u.
    rewrite Hweb, insert_empty. symmetry. apply insert_union_singleton_l.
  - apply filter_In. split; [done|]. apply link_present_spec. by exists u.
Qed.

(** A listing whose first cell has no anchor, or an anchor without a
    usable [href], is extracted but never written: the detail pass skips
    its record. *)
Theorem anchorless_record_not_written (strptime_strftime : string -> option string)
    (web : Web) (c0 c1 : Cell) (tl : Row) (row2 : option Row) (e : EventData) :
  Extractor.extract_record strptime_strftime (c0 :: c1 :: tl) row2 = Some e ->
  (td_anchor c0 = None \/
   exists a, td_anchor c0 = Some a /\ (a_href a = None \/ a_href a = Some "")) ->
  link_present e = false /\
  forall before after,
    detail_pass web (before ++ e :: after) = detail_pass web (before ++ after).
Proof.
  intros Hex Hanchor.
  rewrite ExtractorProps.extract_record_two_cells in Hex. injection Hex as <-.
  assert (Hlink : (Extractor.name_and_link c0).2 = Some "N/A" \/
                  (Extractor.name_and_link c0).2 = Some "" \/
                  (Extractor.name_and_link c0).2 = None).
  { unfold Extractor.name_and_link.
    destruct Hanchor as [->|(a & -> & [->| ->])]; cbn; auto. }
  split.
  - unfold link_present. cbn [link]. by destruct Hlink as [->|[->| ->]].
  - intros before after. by apply linkless_record_dropped.
Qed.

Definition failing_web : Web := fun _ => Raise "TimeoutException".

Definition icml_event : EventData :=
  {| event_name := "ICML 2025"; description := "Machine Learning";
     link := Some "http://www.wikicfp.com/cfp/a";
     when_ := "Jul 13, 2025"; where_ := "Vancouver"; deadline := "30/01/25" |}.

Lemma failed_fetch_keeps_record_witness :
  In (<["error" := VStr "TimeoutException"]> (event_dict icml_event))
     (detail_pass failing_web [icml_event]).
Proof.
  apply (failed_fetch_keeps_record failing_web [icml_event] icml_event
           "http://www.wikicfp.com/cfp/a" "TimeoutException").
  - by left.
  - reflexivity.
  - discriminate.
  - discriminate.
  - reflexivity.
Defined.

Lemma anchorless_record_not_written_witness :
  link_present
    {| event_name := "KDD 2025"; description := "Knowledge Discovery";
       link := Some "N/A"; when_ := "N/A"; where_ := "N/A"; deadline := "N/A" |}
  = false.
Proof.
  refine (proj1 (anchorless_record_not_written ExtractorProps.no_date failing_web
                   (ExtractorProps.text_cell "KDD 2025")
                   (ExtractorProps.text_cell "Knowledge Discovery") [] None _ _ _)).
  - reflexivity.
  - by left.
Defined.

End GatherMore.

(** ** Ranking resolver, continued *)

Module ResolverMore.
Import Resolver ResolverProps.

(** A lookup whose portal loads and whose search reaches a results table. *)
Definition reaches (l : Lookup) (table : ResultsTable) : Prop :=
  portal_loads l = true /\ search_box l = true /\ submit_button l = true /\
  results l = Some table.

Lemma reaches_search (l : Lookup) (table : ResultsTable) :
  reaches l table -> portal_loads l = true /\ search l = Ok table.
Proof.
  intros (Hload & Hbox & Hbtn & Hres). split; [done|].
  unfold search. by rewrite Hbox, Hbtn, Hres.
Qed.

(** Once the portal page has loaded, [get_core_ranking] returns a record
    whatever happens next, and the record is the default one as soon as a
    wait of the search times out. *)
Theorem loaded_portal_always_answers (conference_name : string) (l : Lookup) :
  portal_loads l = true ->
  exists r,
    get_core_ranking conference_name l = Ok r /\
    (r = default_result \/ found r = true) /\
    (search_box l = false \/ submit_button l = false \/ results l = None ->
     r = default_result).
Proof.
  intros Hload. unfold get_core_ranking. rewrite Hload.
  destruct (attempt l default_result) as [r|e] eqn:Hattempt.
  - exists r. split; [done|]. split; [by apply (attempt_default_or_found l)|].
    intros Hwait.
    assert (Hsearch : exists e, search l = Raise e).
    { unfold search.
      destruct (search_box l), (submit_button l), (results l); cbn; eauto;
        by destruct Hwait as [?|[?|?]]. }
    destruct Hsearch as [e Hsearch].
    unfold attempt in Hattempt. by rewrite Hsearch in Hattempt.
  - exists default_result. split; [done|]. split; [by left|done].
Qed.

(** A results table that says "0 Results found." or has no data row gives
    the default record. *)
Theorem negative_search_is_default (conference_name : string) (l : Lookup)
    (table : ResultsTable) :
  reaches l table ->
  PyStr.contains "0 Results found." (table_text table) = true
    \/ result_rows table = [] ->
  get_core_ranking conference_name l = Ok default_result.
Proof.
  intros [Hload Hsearch]%reaches_search Hnone.
  unfold get_core_ranking, attempt. rewrite Hload, Hsearch. cbn.
  destruct (PyStr.contains _ _); [done|]. by destruct Hnone as [?| ->].
Qed.

(** A first row with fewer than 9 cells gives the default record: none of
    the cells that were read is kept. *)
Theorem short_row_is_default (conference_name : string) (l : Lookup)
    (table : ResultsTable) (first_row : Row) (rest : list Row) :
  reaches l table ->
  result_rows table = first_row :: rest ->
  (length first_row < 9)%nat ->
  get_core_ranking conference_name l = Ok default_result.
Proof.
  intros [Hload Hsearch]%reaches_search Hrows Hshort.
  assert (Hlast : td first_row 9 = Raise "NoSuchElementException").
  { assert (Hnone : first_row !! 8%nat = None) by (apply lookup_ge_None_2; lia).
    unfold td. change (9 - 1)%nat with 8%nat. by rewrite Hnone. }
  unfold get_core_ranking, attempt. rewrite Hload, Hsearch. cbn.
  destruct (PyStr.contains _ _); [done|]. rewrite Hrows.
  repeat match goal with
         | |- context [td first_row ?k] =>
             destruct (td first_row k) eqn:?; cbn; [|done]
         end.
  congruence.
Qed.

(** When the text of the table does not contain "0 Results found.", only
    the first result row is read: two lookups that reach tables with the
    same first row return the same record, whatever the other rows and the
    rest of the text of the two tables. *)
Theorem first_row_wins (conference_name : string) (l1 l2 : Lookup)
    (table1 table2 : ResultsTable) (first_row : Row) (rest1 rest2 : list Row) :
  reaches l1 table1 -> reaches l2 table2 ->
  PyStr.contains "0 Results found." (table_text table1) = false ->
  PyStr.contains "0 Results found." (table_text table2) = false ->
  result_rows table1 = first_row :: rest1 ->
  result_rows table2 = first_row :: rest2 ->
  get_core_ranking conference_name l1 = get_core_ranking conference_name l2.
Proof.
  intros [Hload1 Hsearch1]%reaches_search [Hload2 Hsearch2]%reaches_search
    Hmark1 Hmark2 Hrows1 Hrows2.
  unfold get_core_ranking, attempt.
  rewrite Hload1, Hload2, Hsearch1, Hsearch2. cbn.
  by rewrite Hmark1, Hmark2, Hrows1, Hrows2.
Qed.

(** A first row of at least 9 cells is found: the record holds the
    stripped texts of columns 1 to 5 and 7 to 9, and for [dblp_link] the
    [href] of the anchor of column 6, or the default when that cell has no
    anchor. *)
Theorem full_row_is_found (conference_name : string) (l : Lookup)
    (table : ResultsTable) (c1 c2 c3 c4 c5 c6 c7 c8 c9 : Cell) (tl : Row)
    (rest : list Row) :
  reaches l table ->
  PyStr.contains "0 Results found." (table_text table) = false ->
  result_rows table = (c1 :: c2 :: c3 :: c4 :: c5 :: c6 :: c7 :: c8 :: c9 :: tl) :: rest ->
  get_core_ranking conference_name l
  = Ok {| title := PyStr.strip (td_text c1);
          acronym := PyStr.strip (td_text c2);
          source := PyStr.strip (td_text c3);
          rank := PyStr.strip (td_text c4);
          note := PyStr.strip (td_text c5);
          dblp_link := match td_anchor c6 with
                       | Some a => a_href a
                       | None => Some "N/A"
                       end;
          primary_for := PyStr.strip (td_text c7);
          comments := PyStr.strip (td_text c8);
          average_rating := PyStr.strip (td_text c9);
          found := true |}.
Proof.
  intros [Hload Hsearch]%reaches_search Hmark Hrows.
  unfold get_core_ranking, attempt. rewrite Hload, Hsearch. cbn.
  rewrite Hmark, Hrows. unfold with_dblp_link. cbn.
  by destruct (td_anchor c6).
Qed.

Definition cell (s : string) : Cell := {| td_text := s; td_anchor := None |}.

Definition no_results : Lookup :=
  {| portal_loads := true; search_box := true; submit_button := true;
     results := Some {| table_text := "0 Results found."; result_rows := [] |} |}.

Definition eight_cells : Lookup :=
  {| portal_loads := true; search_box := true; submit_button := true;
     results := Some {| table_text := "Showing results 1 - 1 of 1";
                        result_rows := [[cell "Machine Learning"; cell "ICML";
                                         cell "CORE2023"; cell "A*"; cell "";
                                         cell "view"; cell "4611"; cell ""]] |} |}.

Definition dblp_cell : Cell :=
  {| td_text := "view";
     td_anchor := Some {| a_text := "view";
                          a_href := Some "https://dblp.org/db/conf/icml" |} |}.

Definition nine_cells_table : ResultsTable :=
  {| table_text := "Showing results 1 - 1 of 1";
     result_rows := [[cell " Machine Learning "; cell "ICML"; cell "CORE2023";
                      cell "A*"; cell ""; dblp_cell; cell "4611"; cell "";
                      cell "4.8"]] |}.

Definition nine_cells : Lookup :=
  {| portal_loads := true; search_box := true; submit_button := true;
     results := Some nine_cells_table |}.

(** The table of [nine_cells] with a second row, of another conference. *)
Definition two_rows : Lookup :=
  {| portal_loads := true; search_box := true; submit_button := true;
     results := Some {| table_text := "Showing results 1 - 2 of 2";
                        result_rows := result_rows nine_cells_table
                                         ++ [[cell "Machine Learning and Data Mining";
                                              cell "MLDM"; cell "CORE2023"; cell "C";
                                              cell ""; cell "view"; cell "4611";
                                              cell ""; cell "3.0"]] |} |}.

Definition box_timeout : Lookup :=
  {| portal_loads := true; search_box := false; submit_button := false;
     results := None |}.

Lemma not_found_is_default_witness :
  default_result = default_result.
Proof.
  apply (not_found_is_default "ICML" eight_cells default_result); reflexivity.
Defined.

Lemma first_row_wins_witness :
  get_core_ranking "ICML" two_rows = get_core_ranking "ICML" nine_cells.
Proof.
  eapply (first_row_wins "ICML" two_rows nine_cells).
  - by repeat split.
  - by repeat split.
  - reflexivity.
  - reflexivity.
  - reflexivity.
  - reflexivity.
Defined.

Lemma loaded_portal_always_answers_witness :
  exists r,
    get_core_ranking "ICML" box_timeout = Ok r /\
    (r = default_result \/ found r = true) /\
    (search_box box_timeout = false \/ submit_button box_timeout = false
       \/ results box_timeout = None ->
     r = default_result).
Proof.
  apply (loaded_portal_always_answers "ICML" box_timeout). reflexivity.
Defined.

Lemma negative_search_is_default_witness :
  get_core_ranking "NOSUCHCONF" no_results = Ok default_result.
Proof.
  apply (negative_search_is_default "NOSUCHCONF" no_results
           {| table_text := "0 Results found."; result_rows := [] |}).
  - by repeat split.
  - by left.
Defined.

Lemma short_row_is_default_witness :
  get_core_ranking "ICML" eight_cells = Ok default_result.
Proof.
  eapply (short_row_is_default "ICML" eight_cells).
  - by repeat split.
  - reflexivity.
  - simpl. lia.
Defined.

Lemma full_row_is_found_witness :
  get_core_ranking "ICML" nine_cells
  = Ok {| title := "Machine Learning"; acronym := "ICML"; source := "CORE2023";
          rank := "A*"; note := ""; dblp_link := Some "https://dblp.org/db/conf/icml";
          primary_for := "4611"; comments := ""; average_rating := "4.8";
          found := true |}.
Proof.
  apply (full_row_is_found "ICML" nine_cells nine_cells_table
           (cell " Machine Learning ") (cell "ICML") (cell "CORE2023") (cell "A*")
           (cell "") dblp_cell (cell "4611") (cell "") (cell "4.8") [] []).
  - by repeat split.
  - reflexivity.
  - reflexivity.
Defined.

End ResolverMore.

(** ** Conference keys *)

Module KeyProps.
Import Ranking.

Definition space : ascii := " "%char.

(** The key of a record never contains a space. *)
Theorem key_has_no_space (conf : gmap string Value) (k : string) :
  extract_conference_name conf = Ok k -> PyStrProps.occurs space k = false.
Proof.
  unfold extract_conference_name.
  destruct (truth (default (VStr "") (conf !! "page_title"))).
  - destruct (default (VStr "") (conf !! "page_title")) as [| | |title| |]; try done.
    intros [= <-].
    destruct (1 <? length (PyStr.split " " title))%nat eqn:Hparts.
    + apply PyStrProps.occurs_strip, PyStrProps.occurs_split_head.
    + apply PyStrProps.occurs_strip.
      destruct (PyStrProps.occurs space title) eqn:Hocc; [|done].
      exfalso. clear -Hparts Hocc.
      assert (Hlen : (1 < length (PyStr.split " " title))%nat);
        [|apply Nat.ltb_nlt in Hparts; lia].
      clear Hparts. induction title as [|c title IH]; [done|].
      cbn [PyStr.split PyStrProps.occurs] in *. unfold space in *.
      destruct (Ascii.eqb c " ") eqn:Hc.
      * pose proof (PyStrProps.split_nonempty " " title).
        destruct (PyStr.split " " title); [done|]. simpl. lia.
      * cbn in Hocc. specialize (IH Hocc).
        destruct (PyStr.split " " title); simpl in *; lia.
  - destruct (default (VStr "") (conf !! "event_name")) as [| | |name| |]; try done.
    intros [= <-]. apply PyStrProps.occurs_split_head.
Qed.

(** A page title that starts with a space gives the empty key, whatever
    follows the space. *)
Theorem leading_space_title_gives_empty_key (conf : gmap string Value)
    (rest : string) :
  conf !! "page_title" = Some (VStr (String space rest)) ->
  extract_conference_name conf = Ok "".
Proof.
  intros Htitle. unfold extract_conference_name. rewrite Htitle.
  cbn [default from_option id truth PyStr.truthy String.eqb negb].
  cbn [PyStr.split]. unfold space. rewrite Ascii.eqb_refl.
  pose proof (PyStrProps.split_nonempty " " rest).
  destruct (PyStr.split " " rest); [done|]. reflexivity.
Qed.

(** Without a usable page title the key is the first token of the event
    name, and the empty key when the name is missing too. *)
Theorem missing_title_falls_back (conf : gmap string Value) :
  conf !! "page_title" = None \/ conf !! "page_title" = Some (VStr "")
    \/ conf !! "page_title" = Some VNone ->
  extract_conference_name conf
  = match conf !! "event_name" with
    | None => Ok ""
    | Some (VStr name) => Ok (hd "" (PyStr.split " " name))
    | Some _ => Raise "AttributeError"
    end.
Proof.
  intros Htitle. unfold extract_conference_name.
  assert (Hfalse : truth (default (VStr "") (conf !! "page_title")) = false)
    by (by destruct Htitle as [->|[->| ->]]).
  rewrite Hfalse.
  destruct (conf !! "event_name") as [v|]; [|done]. by destruct v.
Qed.

(** Attaching the ranking does not change the key of a record. *)
Lemma core_data_keeps_key (conf : gmap string Value) (v : Value) :
  extract_conference_name (<["core_data" := v]> conf) = extract_conference_name conf.
Proof.
  unfold extract_conference_name. by rewrite !lookup_insert_ne by done.
Qed.

Definition spaced_title : gmap string Value :=
  {[ "page_title" := VStr (String space "ICML 2025") ]}.

Lemma key_has_no_space_witness :
  PyStrProps.occurs space "ICML" = false.
Proof.
  apply (key_has_no_space RankingProps.conf_a "ICML"). reflexivity.
Defined.

Lemma leading_space_title_gives_empty_key_witness :
  extract_conference_name spaced_title = Ok "".
Proof.
  apply (leading_space_title_gives_empty_key spaced_title "ICML 2025"). reflexivity.
Defined.

Lemma missing_title_falls_back_witness :
  extract_conference_name RankingProps.conf_b = Ok "ICML".
Proof.
  apply (missing_title_falls_back RankingProps.conf_b). by left.
Defined.

End KeyProps.

(** ** Enrichment loop, continued *)

Module RankingMore.
Import Ranking RankingProps.

(** The output file of [main] (lines 215-216 and 222):
    [os.path.join(base_output_dir, 'output.json')], passed as
    [output_path]. *)
Definition output_file (DATA_OUTPUT : option string) : string :=
  path_join (base_output_dir DATA_OUTPUT) "output.json".

(** What [os.path.join] puts before a relative component. *)
Definition dir_prefix (a : string) : string :=
  if String.eqb a "" then ""
  else if String.eqb (String.substring (String.length a - 1) 1 a) "/" then a
  else (a ++ "/")%string.

Lemma append_assoc (a b c : string) : ((a ++ b) ++ c)%string = (a ++ b ++ c)%string.
Proof.
  induction a as [|x a IH]; [done|].
  change (String x ((a ++ b) ++ c)%string = String x (a ++ b ++ c)%string).
  by rewrite IH.
Qed.

Lemma append_cancel_l (a b c : string) : (a ++ b)%string = (a ++ c)%string -> b = c.
Proof.
  induction a as [|x a IH]; [done|].
  change (String x (a ++ b)%string = String x (a ++ c)%string -> b = c).
  intros [= H]. by apply IH.
Qed.

Lemma path_join_relative (a b : string) :
  String.prefix "/" b = false -> path_join a b = (dir_prefix a ++ b)%string.
Proof.
  intros Hrel. unfold path_join, dir_prefix. rewrite Hrel.
  destruct (String.eqb a ""); [done|].
  destruct (String.eqb _ "/"); [done|]. by rewrite append_assoc.
Qed.

Lemma last_char_cons (x : ascii) (s : string) :
  s <> EmptyString ->
  String.substring (String.length (String x s) - 1) 1 (String x s)
  = String.substring (String.length s - 1) 1 s.
Proof.
  destruct s as [|y s]; [done|]. intros _.
  cbn [String.length]. rewrite !Nat.sub_succ, !Nat.sub_0_r. done.
Qed.

Lemma last_char_app (a : string) (y : ascii) (s : string) :
  String.substring (String.length (a ++ String y s) - 1) 1 (a ++ String y s)%string
  = String.substring (String.length (String y s) - 1) 1 (String y s).
Proof.
  induction a as [|x a IH]; [done|].
  change (String x a ++ String y s)%string with (String x (a ++ String y s)%string).
  rewrite last_char_cons; [done|]. by destruct a.
Qed.

(** In [main] the output file is never the store file. *)
Lemma output_file_not_store (DATA_OUTPUT : option string) :
  output_file DATA_OUTPUT <> cache_file DATA_OUTPUT.
Proof.
  unfold output_file, cache_file. set (base := base_output_dir DATA_OUTPUT).
  rewrite (path_join_relative base "output.json") by done.
  rewrite (path_join_relative base "cache") by done.
  rewrite (path_join_relative _ "ranking_cache.json") by done.
  assert (Hdir : dir_prefix (dir_prefix base ++ "cache")
                 = (dir_prefix base ++ "cache/")%string).
  { unfold dir_prefix at 1.
    assert (Hne : String.eqb (dir_prefix base ++ "cache") "" = false)
      by (by destruct (dir_prefix base)).
    rewrite Hne, (last_char_app (dir_prefix base) "c" "ache").
    cbn. by rewrite append_assoc. }
  rewrite Hdir, append_assoc. intros Heq. by apply append_cancel_l in Heq.
Qed.

Section WithEnvironment.

Variable json_dump : gmap string RankingRecord -> string.
Variable json_load : string -> option (gmap string RankingRecord).
Variable DATA_OUTPUT : option string.
Variable portal : nat -> string -> Lookup.
Variable records_dump : list (gmap string Value) -> string.
Variable output_path : string.

Abbreviation load_ranking_cache := (load_ranking_cache json_load DATA_OUTPUT).
Abbreviation store_ranking_cache := (store_ranking_cache json_dump DATA_OUTPUT).
Abbreviation enrich_step := (enrich_step json_dump DATA_OUTPUT portal).
Abbreviation enrich_loop := (enrich_loop json_dump DATA_OUTPUT portal).
Abbreviation enrich_conferences :=
  (enrich_conferences json_dump json_load DATA_OUTPUT portal records_dump output_path).

(** The store file holds the text of the cache of the state. *)
Definition flushed (st : RunState) : Prop :=
  files st !! cache_file DATA_OUTPUT = Some (json_dump (ranking_cache st)).

(** A turn of the loop that returns: the record receives the binding of
    its key, which is now in the cache; the state is unchanged on a hit,
    and otherwise has one more lookup, two more seconds of sleep and a
    flushed store file. *)
Lemma enrich_step_ok (conf conf' : gmap string Value) (st st1 : RunState) :
  enrich_step conf st = (st1, Ok conf') ->
  exists k r,
    extract_conference_name conf = Ok k /\
    ranking_cache st1 !! k = Some r /\
    conf' = <["core_data" := VCore r]> conf /\
    (st1 = st \/
     (ranking_cache st !! k = None /\
      st1 = {| ranking_cache := <[k := r]> (ranking_cache st);
               files := store_ranking_cache (<[k := r]> (ranking_cache st)) (files st);
               lookups := lookups st ++ [k]; slept := slept st + 2 |})).
Proof.
  unfold Ranking.enrich_step.
  destruct (extract_conference_name conf) as [k|e]; [|done].
  destruct (ranking_cache st !! k) as [cached|] eqn:Hk.
  - intros [= <- <-]. exists k, cached. by auto.
  - destruct (Resolver.get_core_ranking k _) as [r|e]; [|done].
    intros [= <- <-]. exists k, r. cbn [ranking_cache Ranking.insert_and_store].
    split; [done|]. split; [apply lookup_insert_eq|]. split; [done|]. by right.
Qed.

(** A turn of the loop that raises changes neither the cache nor the
    files. *)
Lemma enrich_step_raise (conf : gmap string Value) (st st1 : RunState) (e : string) :
  enrich_step conf st = (st1, Raise e) ->
  ranking_cache st1 = ranking_cache st /\ files st1 = files st /\
  slept st1 = slept st.
Proof.
  unfold Ranking.enrich_step.
  destruct (extract_conference_name conf) as [k|e']; [|by intros [= <- _]].
  destruct (ranking_cache st !! k) as [cached|]; [done|].
  destruct (Resolver.get_core_ranking k _) as [r|e']; [done|].
  by intros [= <- _].
Qed.

Lemma enrich_loop_cons (conf : gmap string Value) (rest : list (gmap string Value))
    (st : RunState) :
  enrich_loop (conf :: rest) st
  = match enrich_step conf st with
    | (st1, Ok conf') =>
        ((enrich_loop rest st1).1,
         match (enrich_loop rest st1).2 with
         | Ok rest' => Ok (conf' :: rest')
         | Raise e => Raise e
         end)
    | (st1, Raise e) => (st1, Raise e)
    end.
Proof.
  cbn [Ranking.enrich_loop]. destruct (enrich_step conf st) as [st1 [conf'|e]]; [|done].
  by destruct (enrich_loop rest st1).
Qed.

Lemma cache_grows (conferences : list (gmap string Value)) (st : RunState)
    (k : string) (r : RankingRecord) :
  ranking_cache st !! k = Some r ->
  ranking_cache (enrich_loop conferences st).1 !! k = Some r.
Proof.
  destruct (enrich_loop_invariant json_dump DATA_OUTPUT portal conferences st)
    as (_ & _ & _ & _ & Hkeep).
  apply Hkeep.
Qed.

(** The records that the loop returns carry the binding of their key in
    the final cache. *)
Lemma loop_records_match_cache (conferences out : list (gmap string Value))
    (st st' : RunState) :
  enrich_loop conferences st = (st', Ok out) ->
  Forall2 (fun conf conf' =>
             exists k r,
               extract_conference_name conf = Ok k /\
               ranking_cache st' !! k = Some r /\
               conf' = <["core_data" := VCore r]> conf)
          conferences out.
Proof.
  revert st st' out. induction conferences as [|conf rest IH]; intros st st' out.
  - cbn. intros [= <- <-]. constructor.
  - rewrite enrich_loop_cons.
    destruct (enrich_step conf st) as [st1 [conf'|e]] eqn:Hstep; [|done].
    destruct (enrich_loop rest st1) as [st2 [rest'|e]] eqn:Hrest; [|done].
    cbn [fst snd]. intros [= <- <-].
    destruct (enrich_step_ok _ _ _ _ Hstep) as (k & r & Hkey & Hk & -> & _).
    constructor; [|by apply (IH st1)].
    exists k, r. split; [done|]. split; [|done].
    pose proof (cache_grows rest st1 k r Hk) as Hgrow. by rewrite Hrest in Hgrow.
Qed.

(** The loop sleeps two seconds for each lookup that returns. *)
Lemma loop_two_seconds_per_lookup (conferences out : list (gmap string Value))
    (st st' : RunState) :
  enrich_loop conferences st = (st', Ok out) ->
  exists new,
    lookups st' = lookups st ++ new /\
    slept st' = (slept st + 2 * length new)%nat.
Proof.
  revert st st' out. induction conferences as [|conf rest IH]; intros st st' out.
  - cbn. intros [= <- <-]. exists []. rewrite app_nil_r. cbn. split; [done|lia].
  - rewrite enrich_loop_cons.
    destruct (enrich_step conf st) as [st1 [conf'|e]] eqn:Hstep; [|done].
    destruct (enrich_loop rest st1) as [st2 [rest'|e]] eqn:Hrest; [|done].
    cbn [fst snd]. intros [= <- <-].
    destruct (IH _ _ _ Hrest) as (new & Hlook & Hslept).
    destruct (enrich_step_ok _ _ _ _ Hstep) as (k & r & _ & _ & _ & [->|[_ ->]]).
    + by exists new.
    + cbn [lookups slept] in *. exists (k :: new).
      rewrite Hlook, Hslept, <- app_assoc. cbn [length app]. split; [done|lia].
Qed.

(** The loop keeps the store file in step with the cache and writes no
    other file. *)
Lemma loop_store_file_follows_cache (conferences : list (gmap string Value))
    (st : RunState) :
  let st' := (enrich_loop conferences st).1 in
  ((ranking_cache st' = ranking_cache st /\ files st' = files st) \/ flushed st') /\
  (forall path, path <> cache_file DATA_OUTPUT ->
                files st' !! path = files st !! path).
Proof.
  revert st. induction conferences as [|conf rest IH]; intros st; cbn zeta.
  { cbn. split; [by left|done]. }
  rewrite enrich_loop_cons.
  destruct (enrich_step conf st) as [st1 [conf'|e]] eqn:Hstep.
  - cbn [fst]. destruct (IH st1) as [Hsync Hframe].
    destruct (enrich_step_ok _ _ _ _ Hstep) as (k & r & _ & _ & _ & [->|[_ Hst1]]);
      [done|].
    assert (Hfl : flushed st1).
    { rewrite Hst1. unfold flushed. cbn [files ranking_cache].
      apply store_then_lookup. }
    split.
    + right. destruct Hsync as [[Hc Hf]|Hflushed]; [|done].
      unfold flushed in *. by rewrite Hc, Hf.
    + intros path Hpath. rewrite (Hframe path Hpath), Hst1. cbn [files].
      unfold Ranking.store_ranking_cache. rewrite lookup_insert_ne; [done|].
      intros Heq. apply Hpath. by rewrite <- Heq.
  - cbn [fst]. destruct (enrich_step_raise _ _ _ _ Hstep) as (Hc & Hf & _).
    split; [by left|]. intros path _. by rewrite Hf.
Qed.

(** What [store_ranking_cache] writes is what [load_ranking_cache] reads
    back, given a codec that inverts itself on that cache; the store
    touches no other file, and a second store replaces the first. *)
Theorem store_then_load (cache cache0 : gmap string RankingRecord)
    (fs : gmap string string) :
  json_load (json_dump cache) = Some cache ->
  load_ranking_cache (store_ranking_cache cache fs) = Ok cache /\
  (forall path, path <> cache_file DATA_OUTPUT ->
                store_ranking_cache cache fs !! path = fs !! path) /\
  store_ranking_cache cache (store_ranking_cache cache0 fs)
  = store_ranking_cache cache fs.
Proof.
  intros Hcodec. split; [|split].
  - unfold Ranking.load_ranking_cache. fold (cache_file DATA_OUTPUT).
    by rewrite store_then_lookup, Hcodec.
  - intros path Hpath. unfold Ranking.store_ranking_cache.
    rewrite lookup_insert_ne; [done|]. intros Heq. apply Hpath. by rewrite <- Heq.
  - unfold Ranking.store_ranking_cache. apply insert_insert_eq.
Qed.

(** The parts of a run of [enrich_conferences] that returns. *)
Lemma enrich_conferences_ok (conferences out : list (gmap string Value))
    (fs : gmap string string) (st' : RunState) :
  enrich_conferences conferences fs = (st', Ok out) ->
  exists loaded st,
    load_ranking_cache fs = Ok loaded /\
    enrich_loop conferences
      {| ranking_cache := loaded; files := fs; lookups := []; slept := 0 |}
    = (st, Ok out) /\
    st' = {| ranking_cache := ranking_cache st;
             files := <[output_path := records_dump out]>
                        (store_ranking_cache (ranking_cache st) (files st));
             lookups := lookups st; slept := slept st |}.
Proof.
  unfold Ranking.enrich_conferences.
  destruct (load_ranking_cache fs) as [loaded|e]; [|done].
  destruct (enrich_loop conferences _) as [st [out'|e]] eqn:Hloop; [|done].
  intros [= <- <-]. by exists loaded, st.
Qed.

(** When [enrich_conferences] returns, every record of the input comes
    back, in order, with a [core_data] field that is the binding of its key
    in the final cache and with its other fields untouched: two records
    with the same key carry the same ranking. *)
Theorem enriched_records_match_cache (conferences out : list (gmap string Value))
    (fs : gmap string string) (st' : RunState) :
  enrich_conferences conferences fs = (st', Ok out) ->
  Forall2 (fun conf conf' =>
             exists k r,
               extract_conference_name conf = Ok k /\
               ranking_cache st' !! k = Some r /\
               conf' !! "core_data" = Some (VCore r) /\
               forall key, key <> "core_data" -> conf' !! key = conf !! key)
          conferences out.
Proof.
  intros (loaded & st & _ & Hloop & ->)%enrich_conferences_ok.
  cbn [ranking_cache].
  eapply Forall2_impl; [by apply (loop_records_match_cache _ _ _ _ Hloop)|].
  intros conf conf' (k & r & Hkey & Hk & ->). exists k, r.
  split; [done|]. split; [done|]. split; [apply lookup_insert_eq|].
  intros key Hne. by rewrite lookup_insert_ne.
Qed.

(** When [enrich_conferences] returns, it has slept two seconds for each
    lookup of the run and not at all for the records served from the
    cache. *)
Theorem two_seconds_per_lookup (conferences out : list (gmap string Value))
    (fs : gmap string string) (st' : RunState) :
  enrich_conferences conferences fs = (st', Ok out) ->
  slept st' = (2 * length (lookups st'))%nat.
Proof.
  intros (loaded & st & _ & Hloop & ->)%enrich_conferences_ok.
  destruct (loop_two_seconds_per_lookup _ _ _ _ Hloop) as (new & Hlook & Hslept).
  cbn [lookups slept] in *. rewrite Hlook, Hslept. cbn [app]. lia.
Qed.

(** When [enrich_conferences] returns, the files it leaves are those of
    the start with two files written: the store file, which holds the text
    of the final cache, and then the output file, which holds the text of
    the returned records; the final cache keeps every binding of the
    loaded one. *)
Theorem returning_run_writes_two_files (conferences out : list (gmap string Value))
    (fs : gmap string string) (st' : RunState) :
  enrich_conferences conferences fs = (st', Ok out) ->
  files st'
  = <[output_path := records_dump out]>
      (<[cache_file DATA_OUTPUT := json_dump (ranking_cache st')]> fs) /\
  (forall loaded k r,
      load_ranking_cache fs = Ok loaded -> loaded !! k = Some r ->
      ranking_cache st' !! k = Some r).
Proof.
  intros (loaded & st & Hload & Hloop & ->)%enrich_conferences_ok.
  cbn [files ranking_cache].
  pose proof (loop_store_file_follows_cache conferences
                {| ranking_cache := loaded; files := fs; lookups := []; slept := 0 |})
    as [_ Hframe].
  pose proof (cache_grows conferences
                {| ranking_cache := loaded; files := fs; lookups := []; slept := 0 |})
    as Hgrow.
  rewrite Hloop in Hframe, Hgrow. cbn [fst files ranking_cache] in Hframe, Hgrow.
  split.
  - f_equal. unfold Ranking.store_ranking_cache. fold (cache_file DATA_OUTPUT).
    apply map_eq. intros path.
    destruct (decide (path = cache_file DATA_OUTPUT)) as [->|Hne].
    + by rewrite !lookup_insert_eq.
    + rewrite !lookup_insert_ne by done. by apply Hframe.
  - intros loaded' k r Hload' Hk. rewrite Hload in Hload'. injection Hload' as <-.
    by apply Hgrow.
Qed.

(** A record that carries the binding of its key is served as it is. *)
Lemma all_hits (l : list (gmap string Value)) (st : RunState) :
  Forall (fun conf => exists k r,
              extract_conference_name conf = Ok k /\
              ranking_cache st !! k = Some r /\
              conf !! "core_data" = Some (VCore r)) l ->
  enrich_loop l st = (st, Ok l).
Proof.
  induction 1 as [|conf l (k & r & Hkey & Hk & Hcore) _ IH]; [done|].
  rewrite enrich_loop_cons.
  rewrite (cached_key_no_lookup json_dump DATA_OUTPUT portal conf st k r Hkey Hk).
  rewrite IH. cbn [fst snd]. by rewrite (insert_id _ _ _ Hcore).
Qed.

(** Writing the same two files twice is writing them once. *)
Lemma two_writes_twice (a b x y : string) (fs : gmap string string) :
  <[a := x]> (<[b := y]> (<[a := x]> (<[b := y]> fs)))
  = <[a := x]> (<[b := y]> fs).
Proof.
  apply map_eq. intros path. rewrite !lookup_insert.
  repeat case_decide; congruence.
Qed.

(** A second run over the output of a run that returned, for every
    output file that is not the store file. *)
Lemma second_run_any_output (conferences out : list (gmap string Value))
    (fs : gmap string string) (st1 : RunState) :
  enrich_conferences conferences fs = (st1, Ok out) ->
  json_load (json_dump (ranking_cache st1)) = Some (ranking_cache st1) ->
  output_path <> cache_file DATA_OUTPUT ->
  enrich_conferences out (files st1)
  = ({| ranking_cache := ranking_cache st1; files := files st1;
        lookups := []; slept := 0 |}, Ok out).
Proof.
  intros (loaded & st & _ & Hloop & ->)%enrich_conferences_ok Hcodec Hpath.
  cbn [ranking_cache files] in *.
  unfold Ranking.enrich_conferences, Ranking.load_ranking_cache.
  fold (cache_file DATA_OUTPUT).
  rewrite lookup_insert_ne by done. rewrite store_then_lookup, Hcodec.
  rewrite all_hits.
  - cbn [ranking_cache files lookups slept]. do 2 f_equal.
    unfold Ranking.store_ranking_cache. apply two_writes_twice.
  - cbn [ranking_cache].
    pose proof (loop_records_match_cache _ _ _ _ Hloop) as Hrec.
    clear -Hrec. induction Hrec as [|conf conf' l l' (k & r & Hkey & Hk & ->) _ IH];
      constructor; [|done].
    exists k, r. rewrite KeyProps.core_data_keeps_key.
    split; [done|]. split; [done|]. apply lookup_insert_eq.
Qed.

End WithEnvironment.

Section AsMainCallsIt.

Variable json_dump : gmap string RankingRecord -> string.
Variable json_load : string -> option (gmap string RankingRecord).
Variable DATA_OUTPUT : option string.
Variable portal : nat -> string -> Lookup.
Variable records_dump : list (gmap string Value) -> string.

(** [enrich_conferences] as [main] calls it (line 222), with the output
    file [output.json] of the base directory. *)
Abbreviation enrich_conferences :=
  (enrich_conferences json_dump json_load DATA_OUTPUT portal records_dump
     (output_file DATA_OUTPUT)).

(** A second run over the output of a run that returned, on the files
    that it left, makes no lookup, sleeps no second and returns the same
    records with the same cache, given a codec that inverts itself on the
    final cache. *)
Theorem second_run_makes_no_lookup (conferences out : list (gmap string Value))
    (fs : gmap string string) (st1 : RunState) :
  enrich_conferences conferences fs = (st1, Ok out) ->
  json_load (json_dump (ranking_cache st1)) = Some (ranking_cache st1) ->
  enrich_conferences out (files st1)
  = ({| ranking_cache := ranking_cache st1; files := files st1;
        lookups := []; slept := 0 |}, Ok out).
Proof.
  intros Hrun Hcodec.
  apply (second_run_any_output json_dump json_load DATA_OUTPUT portal records_dump
           (output_file DATA_OUTPUT) conferences out fs st1 Hrun Hcodec).
  apply output_file_not_store.
Qed.

End AsMainCallsIt.

(** The text of a list of records, with an indentation of 2: the instance
    of [records_dump] on which the runs below are computed. *)
Definition indent (n : nat) : string :=
  fold_right String.append EmptyString (repeat " " n).

Definition join_lines (lines : list string) : string :=
  fold_right (fun line rest =>
                if String.eqb rest "" then line
                else (line ++ "," ++ Json.newline ++ rest)%string)
             EmptyString lines.

Definition dump_block (opening closing : string) (n : nat) (lines : list string)
  : string :=
  match lines with
  | [] => (opening ++ closing)%string
  | _ => (opening ++ Json.newline
            ++ join_lines (map (String.append (indent (n + 2))) lines)
            ++ Json.newline ++ indent n ++ closing)%string
  end.

Definition dump_pair (key value : string) : string :=
  (Json.dump_string key ++ ": " ++ value)%string.

Definition dump_value (n : nat) (v : Value) : string :=
  match v with
  | VNone => "null"
  | VBool b => if b then "true" else "false"
  | VInt z => NilZero.string_of_int (Z.to_int z)
  | VStr s => Json.dump_string s
  | VList l => dump_block "[" "]" n (map Json.dump_string l)
  | VCore r =>
      dump_block "{" "}" n
        [dump_pair "title" (Json.dump_string (title r));
         dump_pair "acronym" (Json.dump_string (acronym r));
         dump_pair "source" (Json.dump_string (source r));
         dump_pair "rank" (Json.dump_string (rank r));
         dump_pair "note" (Json.dump_string (note r));
         dump_pair "dblp_link" (Json.dump_href (dblp_link r));
         dump_pair "primary_for" (Json.dump_string (primary_for r));
         dump_pair "comments" (Json.dump_string (comments r));
         dump_pair "average_rating" (Json.dump_string (average_rating r));
         dump_pair "found" (if found r then "true" else "false")]
  end.

Definition dump_records (records : list (gmap string Value)) : string :=
  dump_block "[" "]" 0
    (map (fun record =>
            dump_block "{" "}" 2
              (map (fun kv => dump_pair kv.1 (dump_value 4 kv.2)) (map_to_list record)))
       records).

(** The output file of [main] under the default directory. *)
Definition output_json : string := output_file None.

(** A run over two records with the same key, from an empty disk. *)
Definition demo_run : RunState * Exc (list (gmap string Value)) :=
  enrich_conferences Json.dump Json.load None changing_portal dump_records output_json
    [conf_a; conf_b] ∅.

Definition demo_out : list (gmap string Value) :=
  [<["core_data" := VCore (ranked "A*")]> conf_a;
   <["core_data" := VCore (ranked "A*")]> conf_b].

Lemma demo_run_returns : demo_run = (demo_run.1, Ok demo_out).
Proof. vm_compute. reflexivity. Qed.

Lemma enriched_records_match_cache_witness :
  Forall2 (fun conf conf' =>
             exists k r,
               extract_conference_name conf = Ok k /\
               ranking_cache demo_run.1 !! k = Some r /\
               conf' !! "core_data" = Some (VCore r) /\
               forall key, key <> "core_data" -> conf' !! key = conf !! key)
          [conf_a; conf_b] demo_out.
Proof.
  apply (enriched_records_match_cache Json.dump Json.load None changing_portal
           dump_records output_json [conf_a; conf_b] demo_out ∅ demo_run.1).
  apply demo_run_returns.
Defined.

Lemma two_seconds_per_lookup_witness :
  slept demo_run.1 = (2 * length (lookups demo_run.1))%nat.
Proof.
  apply (two_seconds_per_lookup Json.dump Json.load None changing_portal
           dump_records output_json [conf_a; conf_b] demo_out ∅ demo_run.1).
  apply demo_run_returns.
Defined.

Lemma returning_run_writes_two_files_witness :
  files demo_run.1
  = <[output_json := dump_records demo_out]>
      (<[cache_file None := Json.dump (ranking_cache demo_run.1)]> ∅).
Proof.
  refine (proj1 (returning_run_writes_two_files Json.dump Json.load None
                   changing_portal dump_records output_json
                   [conf_a; conf_b] demo_out ∅ demo_run.1 _)).
  apply demo_run_returns.
Defined.

Lemma second_run_makes_no_lookup_witness :
  enrich_conferences Json.dump Json.load None changing_portal dump_records output_json
    demo_out (files demo_run.1)
  = ({| ranking_cache := ranking_cache demo_run.1; files := files demo_run.1;
        lookups := []; slept := 0 |}, Ok demo_out).
Proof.
  apply (second_run_makes_no_lookup Json.dump Json.load None changing_portal
           dump_records [conf_a; conf_b] demo_out ∅ demo_run.1).
  - apply demo_run_returns.
  - vm_compute. reflexivity.
Defined.

Lemma store_then_load_witness :
  load_ranking_cache Json.load None
    (store_ranking_cache Json.dump None {[ "ICML" := icml ]} corrupt_store)
  = Ok {[ "ICML" := icml ]}.
Proof.
  refine (proj1 (store_then_load Json.dump Json.load None {[ "ICML" := icml ]} ∅
                   corrupt_store _)).
  vm_compute. reflexivity.
Defined.

End RankingMore.

(** ** Rating and the uncached enrichment *)

Module Rating.

(** [event.get('deadline') != "N/A"], negated. *)
Definition is_marker (v : option Value) : bool :=
  match v with
  | Some (VStr s) => String.eqb s "N/A"
  | _ => false
  end.

(** The body of the loop of [rate_events]: a copy of the event with its
    [rating]. *)
Definition rate_step (rated : list (gmap string Value)) (event : gmap string Value)
  : list (gmap string Value) :=
  let event_copy :=
    <["rating" := VInt (if is_marker (event !! "deadline") then 0 else 1)]> event in
  rated ++ [event_copy].

(** [rate_events] *)
Definition rate_events (events : list (gmap string Value))
  : list (gmap string Value) :=
  fold_left rate_step events [].

End Rating.

Module Uncached.

Section WithPortal.

Variable portal : nat -> string -> Lookup.

(** The body of the inner loop of [process_all_json_files] (lines
    158-163): every record is looked up, cache or no cache. *)
Definition lookup_step (conf : gmap string Value) (st : RunState)
  : RunState * Exc (gmap string Value) :=
  match Ranking.extract_conference_name conf with
  | Raise e => (st, Raise e)
  | Ok conf_name =>
      let l := portal (length (lookups st)) conf_name in
      let st := {| ranking_cache := ranking_cache st; files := files st;
                   lookups := lookups st ++ [conf_name]; slept := slept st |} in
      match Resolver.get_core_ranking conf_name l with
      | Raise e => (st, Raise e)
      | Ok core_data =>
          ({| ranking_cache := ranking_cache st; files := files st;
              lookups := lookups st; slept := slept st + 2 |},
           Ok (<["core_data" := VCore core_data]> conf))
      end
  end.

(** [for conf in conferences:] (lines 157-163). *)
Fixpoint lookup_loop (conferences : list (gmap string Value)) (st : RunState)
  : RunState * Exc (list (gmap string Value)) :=
  match conferences with
  | [] => (st, Ok [])
  | conf :: rest =>
      match lookup_step conf st with
      | (st, Ok conf) =>
          let '(st, r) := lookup_loop rest st in
          (st, match r with
               | Ok rest => Ok (conf :: rest)
               | Raise e => Raise e
               end)
      | (st, Raise e) => (st, Raise e)
      end
  end.

End WithPortal.

End Uncached.

Module RatingProps.
Import Rating.

Lemma rate_events_map (events : list (gmap string Value)) :
  rate_events events
  = map (fun event =>
           <["rating" := VInt (if is_marker (event !! "deadline") then 0 else 1)]> event)
        events.
Proof.
  unfold rate_events.
  enough (Hgen : forall acc,
             fold_left rate_step events acc
             = acc ++ map (fun event =>
                             <["rating" := VInt (if is_marker (event !! "deadline")
                                                 then 0 else 1)]> event) events)
    by apply (Hgen []).
  induction events as [|e rest IH]; intros acc; cbn [fold_left map].
  - by rewrite app_nil_r.
  - rewrite IH. unfold rate_step. by rewrite <- app_assoc.
Qed.

Lemma is_marker_spec (v : option Value) :
  is_marker v = true <-> v = Some (VStr "N/A").
Proof.
  destruct v as [[| | |s| |]|]; cbn; try (split; [done|by intros [=]]).
  rewrite String.eqb_eq. split; [by intros ->|by intros [=]].
Qed.

(** [rate_events] returns one copy per event, in order, that differs from
    it in the [rating] field alone; the rating is 0 exactly when the
    deadline is the string ["N/A"] and 1 otherwise, also for an event
    without a deadline. *)
Theorem rate_events_spec (events : list (gmap string Value)) :
  Forall2 (fun event rated =>
             (rated !! "rating" = Some (VInt 0)
              <-> event !! "deadline" = Some (VStr "N/A")) /\
             (rated !! "rating" = Some (VInt 0) \/ rated !! "rating" = Some (VInt 1)) /\
             (event !! "deadline" = None -> rated !! "rating" = Some (VInt 1)) /\
             forall key, key <> "rating" -> rated !! key = event !! key)
          events (rate_events events).
Proof.
  rewrite rate_events_map. induction events as [|e rest IH]; constructor; [|done].
  rewrite lookup_insert_eq.
  pose proof (is_marker_spec (e !! "deadline")) as Hm.
  destruct (is_marker (e !! "deadline")).
  - split; [split; [intros _; by apply Hm|done]|].
    split; [by left|]. split.
    + intros Hnone. rewrite Hnone in Hm. by destruct Hm as [Hm _]; specialize (Hm eq_refl).
    + intros key Hne. by rewrite lookup_insert_ne.
  - split; [split; [done|]|].
    + intros Hna. apply Hm in Hna. done.
    + split; [by right|]. split; [done|].
      intros key Hne. by rewrite lookup_insert_ne.
Qed.

(** For a record written by the gathering script and then enriched, the
    rating is 0 exactly when the listing gave no deadline: the detail page
    and the ranking have no say. *)
Theorem rating_follows_listing_deadline (web : Web) (u : string) (e : EventData)
    (core_data : Value) :
  rate_events
    [<["core_data" := core_data]>
       (Enricher.scrape_event_details web u ∪ Gather.event_dict e)]
  = [<["rating" := VInt (if String.eqb (deadline e) "N/A" then 0 else 1)]>
       (<["core_data" := core_data]>
          (Enricher.scrape_event_details web u ∪ Gather.event_dict e))].
Proof.
  rewrite rate_events_map. cbn [map]. do 3 f_equal.
  rewrite lookup_insert_ne by done.
  destruct (GatherMore.merge_keeps_listing_fields_aux web u e) as (_ & _ & _ & _ & _ & Hd).
  by rewrite Hd.
Qed.

End RatingProps.

Module UncachedProps.
Import Uncached.

Section WithPortal.

Variable portal : nat -> string -> Lookup.

(** When the uncached loop returns, it has looked up every record, a
    repeated key once per occurrence, in the order of the records, and has
    slept two seconds for each; it never reads or writes the cache. *)
Theorem uncached_looks_up_every_record (conferences out : list (gmap string Value))
    (st st' : RunState) :
  lookup_loop portal conferences st = (st', Ok out) ->
  lookups st' = lookups st ++ RankingProps.keys conferences /\
  length (RankingProps.keys conferences) = length conferences /\
  slept st' = (slept st + 2 * length conferences)%nat /\
  ranking_cache st' = ranking_cache st /\
  files st' = files st.
Proof.
  revert st st' out. induction conferences as [|conf rest IH]; intros st st' out.
  - cbn. intros [= <- <-]. rewrite app_nil_r. repeat split; lia.
  - cbn [lookup_loop]. unfold lookup_step.
    destruct (Ranking.extract_conference_name conf) as [k|e] eqn:Hkey; [|done].
    destruct (Resolver.get_core_ranking k _) as [r|e]; [|done].
    destruct (lookup_loop portal rest _) as [st2 [rest'|e]] eqn:Hrest; [|done].
    intros [= <- <-].
    destruct (IH _ _ _ Hrest) as (Hlook & Hlen & Hslept & Hcache & Hfiles).
    cbn [lookups slept ranking_cache files] in *.
    rewrite (RankingProps.keys_cons_ok _ _ _ Hkey).
    rewrite Hlook, Hslept, <- app_assoc. cbn [length app].
    repeat split; try done; lia.
Qed.

End WithPortal.

Lemma uncached_looks_up_every_record_witness :
  lookups (lookup_loop RankingProps.changing_portal
             [RankingProps.conf_a; RankingProps.conf_b] (RankingProps.empty_run ∅)).1
  = ["ICML"; "ICML"].
Proof.
  refine (proj1 (uncached_looks_up_every_record RankingProps.changing_portal
                   [RankingProps.conf_a; RankingProps.conf_b]
                   [<["core_data" := VCore (RankingProps.ranked "A*")]> RankingProps.conf_a;
                    <["core_data" := VCore (RankingProps.ranked "B")]> RankingProps.conf_b]
                   (RankingProps.empty_run ∅) _ _)).
  vm_compute. reflexivity.
Defined.

End UncachedProps.
